(** * school-api: the three entity controllers

    A shallow embedding of [src/controllers/student.controller.js] and of
    the course and teacher controllers, and the properties of their
    handlers: query normalisation of the list endpoints (pagination,
    sorting, eager loading), the pagination envelope, and the error
    contract of the by-id endpoints.

    Conventions of the model.
    - A JavaScript number is a double. The numbers that the controllers
      store are [NaN], the two infinities and integer-valued doubles; a
      finite one is written [Fin z] with [z] its value. Arithmetic rounds
      to the nearest double, ties to even, and overflows to an infinity;
      it is compared on examples with the Standard Library's binary64.
      The sign of zero is not modelled: both zeros are falsy and print
      as 0, and no zero is ever a divisor in the handlers.
    - A row count is an integer that a double holds exactly.
    - Strings are sequences of 8-bit code units.
    - A query parameter is absent, a string, an array or an object, as
      the query parser delivers it.
    - The persistence layer ([db.Student], [db.Course], [db.Teacher]) is
      external: a handler is a program that awaits persistence calls, and
      it is run against an arbitrary interpretation of those calls. *)

From Stdlib Require Import ZArith List String Ascii Bool Lia.
From Stdlib Require Import Permutation.
From Stdlib Require Import DecimalString DecimalNat.
From Stdlib Require Import SpecFloat.
Import ListNotations.
Local Open Scope string_scope.
Local Open Scope Z_scope.
Set Warnings "-register-all".

(** ** JavaScript primitives used by the controllers *)

Module JS.

(** *** Numbers *)

Inductive number :=
| NaN
| Infinity
| NegInfinity
| Fin (z : Z).

(** [n / d] rounded to the nearest integer, ties to the even one, for
    [0 <= n] and [0 < d]. *)
Definition roundHalfEven (n d : Z) : Z :=
  let q := n / d in
  let r := n mod d in
  if 2 * r <? d then q
  else if d <? 2 * r then q + 1
  else if Z.even q then q else q + 1.

(** The double nearest to the integer [z]: 53 significant bits are kept,
    and a magnitude that rounds to 2^1024 or more is an infinity. *)
Definition roundInt (z : Z) : number :=
  let a := Z.abs z in
  let e := Z.max 0 (Z.log2 a - 52) in
  let v := roundHalfEven a (2 ^ e) * 2 ^ e in
  if 2 ^ 1024 <=? v then (if z <? 0 then NegInfinity else Infinity)
  else Fin (Z.sgn z * v).

(** [x - y]. *)
Definition sub (x y : number) : number :=
  match x, y with
  | NaN, _ | _, NaN => NaN
  | Infinity, Infinity | NegInfinity, NegInfinity => NaN
  | Infinity, _ | _, NegInfinity => Infinity
  | NegInfinity, _ | _, Infinity => NegInfinity
  | Fin a, Fin b => roundInt (a - b)
  end.

(** [x * y]. *)
Definition mul (x y : number) : number :=
  match x, y with
  | NaN, _ | _, NaN => NaN
  | Fin a, Fin b => roundInt (a * b)
  | Fin a, Infinity | Infinity, Fin a =>
      if a =? 0 then NaN else if 0 <? a then Infinity else NegInfinity
  | Fin a, NegInfinity | NegInfinity, Fin a =>
      if a =? 0 then NaN else if 0 <? a then NegInfinity else Infinity
  | Infinity, Infinity | NegInfinity, NegInfinity => Infinity
  | Infinity, NegInfinity | NegInfinity, Infinity => NegInfinity
  end.

(** [x <= y]. *)
Definition leb (x y : number) : bool :=
  match x, y with
  | NaN, _ | _, NaN => false
  | NegInfinity, _ | _, Infinity => true
  | Infinity, _ | _, NegInfinity => false
  | Fin a, Fin b => a <=? b
  end.

(** The exponent of the leading bit of the quotient [n / d], for
    positive [n] and [d]: the [k] with 2^k <= n / d < 2^(k + 1). *)
Definition ilog2 (n d : Z) : Z :=
  let k := Z.log2 n - Z.log2 d in
  if 2 ^ Z.max k 0 * d <=? 2 ^ Z.max (- k) 0 * n then k else k - 1.

(** The double nearest to the quotient [n / d] of positive integers, as
    mantissa and exponent: its value is [m * 2^e]. Doubles have 53
    significant bits, and no exponent below -1074. *)
Definition roundQuotient (n d : Z) : Z * Z :=
  let e := Z.max (ilog2 n d - 52) (- 1074) in
  (roundHalfEven (n * 2 ^ Z.max (- e) 0) (d * 2 ^ Z.max e 0), e).

(** [Math.ceil] of [m * 2^e] and of [- (m * 2^e)], for [0 <= m]. *)
Definition ceilDyadic (negative : bool) (m e : Z) : Z :=
  if 0 <=? e then (if negative then - (m * 2 ^ e) else m * 2 ^ e)
  else if negative then - (m / 2 ^ (- e))
  else - ((- m) / 2 ^ (- e)).

(** [Math.ceil(x / y)]. *)
Definition ceilDiv (x y : number) : number :=
  match x, y with
  | NaN, _ | _, NaN => NaN
  | Infinity, Infinity | Infinity, NegInfinity
  | NegInfinity, Infinity | NegInfinity, NegInfinity => NaN
  | Infinity, Fin b => if b <? 0 then NegInfinity else Infinity
  | NegInfinity, Fin b => if b <? 0 then Infinity else NegInfinity
  | Fin _, Infinity | Fin _, NegInfinity => Fin 0
  | Fin a, Fin b =>
      if b =? 0 then
        (if a =? 0 then NaN else if 0 <? a then Infinity else NegInfinity)
      else if a =? 0 then Fin 0
      else
        let '(m, e) := roundQuotient (Z.abs a) (Z.abs b) in
        roundInt (ceilDyadic (negb (Bool.eqb (a <? 0) (b <? 0))) m e)
  end.

(** *** Strings *)

(** Code units that [parseInt] skips at the start of its input
    (StrWhiteSpaceChar: TAB, LF, VT, FF, CR, SP, NBSP). *)
Definition isStrWhiteSpaceChar (c : ascii) : bool :=
  let n := nat_of_ascii c in
  existsb (Nat.eqb n) [9; 10; 11; 12; 13; 32; 160]%nat.

Fixpoint trimStart (s : string) : string :=
  match s with
  | String c r => if isStrWhiteSpaceChar c then trimStart r else s
  | EmptyString => EmptyString
  end.

(** The value of a code unit as a digit: 0-9, then a-z and A-Z for 10-35. *)
Definition digitValue (c : ascii) : option Z :=
  let n := Z.of_nat (nat_of_ascii c) in
  if (48 <=? n) && (n <=? 57) then Some (n - 48)
  else if (97 <=? n) && (n <=? 122) then Some (n - 87)
  else if (65 <=? n) && (n <=? 90) then Some (n - 55)
  else None.

(** The longest prefix of [s] made of radix-[R] digits, as digit values. *)
Fixpoint radixDigits (R : Z) (s : string) : list Z :=
  match s with
  | String c r =>
      match digitValue c with
      | Some d => if d <? R then d :: radixDigits R r else []
      | None => []
      end
  | EmptyString => []
  end.

Definition mathInt (R : Z) (ds : list Z) : Z :=
  fold_left (fun acc d => acc * R + d) ds 0.

(** [s.split(sep)] for a one-character separator. *)
Fixpoint split (sep : ascii) (s : string) : list string :=
  match s with
  | EmptyString => [EmptyString]
  | String c r =>
      if Ascii.eqb c sep then EmptyString :: split sep r
      else match split sep r with
           | h :: t => String c h :: t
           | [] => [String c EmptyString]
           end
  end.

(** [a.join(sep)] for a one-character separator. *)
Fixpoint join (sep : ascii) (a : list string) : string :=
  match a with
  | [] => EmptyString
  | [x] => x
  | x :: rest => x ++ String sep (join sep rest)
  end.

(** [a.includes(x)] on an array of strings. *)
Definition includes (a : list string) (x : string) : bool :=
  existsb (String.eqb x) a.

(** [a.push(x)]. *)
Definition push {A} (a : list A) (x : A) : list A := a ++ [x].

(** *** Query parameters *)

(** A parameter of [req.query] that is present: a string, an array (a
    repeated key, or [key[]=...]) or an object ([key[sub]=...]). *)
Inductive qvalue :=
| QString (s : string)
| QArray (items : list qvalue)
| QObject (fields : list (string * qvalue)).

Fixpoint ToStringValue (v : qvalue) : string :=
  match v with
  | QString s => s
  | QArray items => join "," (map ToStringValue items)
  | QObject _ => "[object Object]"
  end.

(** [ToString] of a query parameter: [undefined] prints as "undefined",
    an array as its elements joined by commas. *)
Definition ToString (v : option qvalue) : string :=
  match v with
  | Some x => ToStringValue x
  | None => "undefined"
  end.

(** [parseInt(string)] with no radix argument. Steps as in ECMAScript:
    trim, sign, optional 0x/0X prefix, digits; the integer read is then
    the nearest double. *)
Definition parseIntString (inputString : string) : number :=
  let str := trimStart inputString in
  let sign := match str with String "-" _ => -1 | _ => 1 end in
  let str := match str with
             | String "+" r => r
             | String "-" r => r
             | _ => str
             end in
  let '(R, str) := match str with
                   | String "0" (String "x" r) => (16, r)
                   | String "0" (String "X" r) => (16, r)
                   | _ => (10, str)
                   end in
  match radixDigits R str with
  | [] => NaN
  | ds => roundInt (sign * mathInt R ds)
  end.

Definition parseInt (v : option qvalue) : number :=
  parseIntString (ToString v).

(** [n || d] for a number [n]: [NaN] and zero are falsy. *)
Definition orDefault (n : number) (d : Z) : number :=
  match n with
  | NaN => Fin d
  | Fin 0 => Fin d
  | _ => n
  end.

(** [v === s] for a query parameter [v] and a string literal [s]. *)
Definition strictEq (v : option qvalue) (s : string) : bool :=
  match v with
  | Some (QString x) => String.eqb x s
  | _ => false
  end.

(** *** Values *)

(** Values that are serialised to JSON; an object keeps its keys in
    insertion order. *)
Inductive value :=
| VNull
| VNum (n : number)
| VStr (s : string)
| VArr (items : list value)
| VObj (fields : list (string * value)).

Fixpoint field (k : string) (fields : list (string * value)) : option value :=
  match fields with
  | [] => None
  | (k', v) :: rest => if String.eqb k k' then Some v else field k rest
  end.

(** [v.k] for an object [v]; [None] when there is no such field. *)
Definition getField (v : value) (k : string) : option value :=
  match v with
  | VObj fields => field k fields
  | _ => None
  end.

Definition keys (v : value) : list string :=
  match v with
  | VObj fields => map fst fields
  | _ => []
  end.

Record Error := { message : string }.

End JS.
Import JS.

(** ** The persistence layer as seen by the controllers *)

(** The three models of [db]. A model also serves as the descriptor that
    an [include] list names. *)
Inductive entity := Course | Student | Teacher.

Inductive direction := ASC | DESC.

(** The options object of [findAll]. *)
Record FindOptions := {
  fo_limit : number;
  fo_offset : number;
  fo_order : list (string * direction);
  fo_include : list entity
}.

(** A promise settles with a value or with a thrown error. *)
Inductive outcome (A : Type) :=
| Resolved (a : A)
| Rejected (err : Error).
Arguments Resolved {A} a.
Arguments Rejected {A} err.

(** The calls the handlers make, indexed by the type of what they resolve
    to. [findByPk] resolves to [None] for [null]. [update] and [destroy]
    are the instance methods, called on the instance [inst]. *)
Inductive dbCall : Type -> Type :=
| Create (m : entity) (body : value) : dbCall value
| Count (m : entity) : dbCall Z
| FindAll (m : entity) (o : FindOptions) : dbCall (list value)
| FindByPk (m : entity) (id : string) (include : list entity)
    : dbCall (option value)
| Update (m : entity) (inst : value) (body : value) : dbCall value
| Destroy (m : entity) (inst : value) : dbCall unit.

(** Handler bodies: straight-line code that awaits persistence calls and
    may throw. *)
Inductive prog (A : Type) : Type :=
| Ret (a : A)
| Throw (err : Error)
| Await {X : Type} (c : dbCall X) (k : outcome X -> prog A).
Arguments Ret {A} a.
Arguments Throw {A} err.
Arguments Await {A X} c k.

Definition await {X} (c : dbCall X) : prog X :=
  Await c (fun r => match r with
                    | Resolved x => Ret x
                    | Rejected e => Throw e
                    end).

Fixpoint bind {A B} (p : prog A) (f : A -> prog B) : prog B :=
  match p with
  | Ret a => f a
  | Throw e => Throw e
  | Await c k => Await c (fun r => bind (k r) f)
  end.

(** [try { p } catch (err) { h err }]. *)
Fixpoint tryCatch {A} (p : prog A) (h : Error -> prog A) : prog A :=
  match p with
  | Ret a => Ret a
  | Throw e => h e
  | Await c k => Await c (fun r => tryCatch (k r) h)
  end.

Declare Scope prog_scope.
Delimit Scope prog_scope with prog.
Notation "x <- p ;; q" := (bind p (fun x => q))
  (at level 61, p at next level, right associativity) : prog_scope.
Notation "'try' p 'catch' h" := (tryCatch p h)
  (at level 62, p at level 61, h at level 61) : prog_scope.

(** *** Running a handler *)

(** What a call was answered with, without the index. *)
Inductive answer :=
| ARow (v : value)
| ACount (n : Z)
| ARows (rows : list value)
| AFound (r : option value)
| ADone.

Definition answerOf {X} (c : dbCall X) : X -> answer :=
  match c in dbCall X return X -> answer with
  | Create _ _ => ARow
  | Count _ => ACount
  | FindAll _ _ => ARows
  | FindByPk _ _ _ => AFound
  | Update _ _ _ => ARow
  | Destroy _ _ => fun _ => ADone
  end.

Inductive call :=
| CCreate (m : entity) (body : value)
| CCount (m : entity)
| CFindAll (m : entity) (o : FindOptions)
| CFindByPk (m : entity) (id : string) (include : list entity)
| CUpdate (m : entity) (inst : value) (body : value)
| CDestroy (m : entity) (inst : value).

Definition callOf {X} (c : dbCall X) : call :=
  match c with
  | Create m b => CCreate m b
  | Count m => CCount m
  | FindAll m o => CFindAll m o
  | FindByPk m id inc => CFindByPk m id inc
  | Update m i b => CUpdate m i b
  | Destroy m i => CDestroy m i
  end.

Definition settled {X} (c : dbCall X) (r : outcome X) : outcome answer :=
  match r with
  | Resolved x => Resolved (answerOf c x)
  | Rejected e => Rejected e
  end.

(** One exchange with the persistence layer. *)
Definition event : Type := call * outcome answer.

(** A persistence layer over a store: it answers every call and leaves a
    store behind. *)
Definition persistence (Store : Type) : Type :=
  forall X, dbCall X -> Store -> outcome X * Store.

Record run_result (Store A : Type) := {
  result : outcome A;
  final : Store;
  trace : list event
}.
Arguments result {Store A} _.
Arguments final {Store A} _.
Arguments trace {Store A} _.

Fixpoint run {Store A} (db : persistence Store) (p : prog A) (s : Store)
  : run_result Store A :=
  match p with
  | Ret a => {| result := Resolved a; final := s; trace := [] |}
  | Throw e => {| result := Rejected e; final := s; trace := [] |}
  | Await c k =>
      let '(r, s1) := db _ c s in
      let rest := run db (k r) s1 in
      {| result := result rest;
         final := final rest;
         trace := (callOf c, settled c r) :: trace rest |}
  end.

(** ** Requests and responses *)

Record Query := {
  q_limit : option qvalue;
  q_page : option qvalue;
  q_sort : option qvalue;
  q_populate : option qvalue
}.

Record Request := {
  query : Query;
  params_id : string;
  req_body : value
}.

Record Response := {
  status : Z;
  body : value
}.

(** [res.json(v)]: the status stays at its default, 200. *)
Definition res_json (v : value) : Response :=
  {| status := 200; body := v |}.

(** [res.status(code).json(v)]. *)
Definition res_status_json (code : Z) (v : value) : Response :=
  {| status := code; body := v |}.

(** ** The controllers

    Each handler is transcribed from its source function. [await
    inst.update(body)] changes the instance in place; here the call
    resolves to the instance as it is after the update, and that is what
    the handler serialises. *)
Local Open Scope prog_scope.

(** [v?.split(',') || []] for a query parameter [v]: the empty array
    when [v] is absent, the split string when it is a string. An array or
    an object has no [split] method, so the call throws a TypeError. *)
Definition splitFailure : Error :=
  {| message := "req.query.populate?.split is not a function" |}.

Definition optionalSplit (v : option qvalue) : prog (list string) :=
  match v with
  | None => Ret []
  | Some (QString s) => Ret (split "," s)
  | Some _ => Throw splitFailure
  end.

(** *** src/controllers/student.controller.js *)

Definition createStudent (req : Request) : prog Response :=
  try
    (student <- await (Create Student (req_body req)) ;;
     Ret (res_status_json 201 student))
  catch (fun err =>
     Ret (res_status_json 500 (VObj [("error", VStr (message err))]))).

Definition getAllStudents (req : Request) : prog Response :=
  let limit := orDefault (parseInt (q_limit (query req))) 10 in
  let page := orDefault (parseInt (q_page (query req))) 1 in
  let sort := if strictEq (q_sort (query req)) "desc" then DESC else ASC in
  populate <- optionalSplit (q_populate (query req)) ;;
  let includeModels : list entity := [] in
  let includeModels :=
    if includes populate "teacher" then push includeModels Teacher
    else includeModels in
  let includeModels :=
    if includes populate "courses" then push includeModels Course
    else includeModels in
  try
    (total <- await (Count Student) ;;
     students <- await (FindAll Student
                   {| fo_limit := limit;
                      fo_offset := mul (sub page (Fin 1)) limit;
                      fo_order := [("createdAt", sort)];
                      fo_include := includeModels |}) ;;
     Ret (res_json (VObj [("total", VNum (Fin total));
                     ("page", VNum page);
                     ("totalPages", VNum (ceilDiv (Fin total) limit));
                     ("data", VArr students)])))
  catch (fun err =>
     Ret (res_status_json 500 (VObj [("error", VStr (message err))]))).

Definition getStudentById (req : Request) : prog Response :=
  try
    (student <- await (FindByPk Student (params_id req) [Course; Teacher]) ;;
     match student with
     | None => Ret (res_status_json 404 (VObj [("message", VStr "Not found")]))
     | Some student => Ret (res_json student)
     end)
  catch (fun err =>
     Ret (res_status_json 500 (VObj [("error", VStr (message err))]))).

Definition updateStudent (req : Request) : prog Response :=
  try
    (student <- await (FindByPk Student (params_id req) []) ;;
     match student with
     | None => Ret (res_status_json 404 (VObj [("message", VStr "Not found")]))
     | Some student =>
         student <- await (Update Student student (req_body req)) ;;
         Ret (res_json student)
     end)
  catch (fun err =>
     Ret (res_status_json 500 (VObj [("error", VStr (message err))]))).

Definition deleteStudent (req : Request) : prog Response :=
  try
    (student <- await (FindByPk Student (params_id req) []) ;;
     match student with
     | None => Ret (res_status_json 404 (VObj [("message", VStr "Not found")]))
     | Some student =>
         _ <- await (Destroy Student student) ;;
         Ret (res_json (VObj [("message", VStr "Deleted")]))
     end)
  catch (fun err =>
     Ret (res_status_json 500 (VObj [("error", VStr (message err))]))).

(** *** The course controller *)

Definition createCourse (req : Request) : prog Response :=
  try
    (course <- await (Create Course (req_body req)) ;;
     Ret (res_status_json 201 course))
  catch (fun err =>
     Ret (res_status_json 500 (VObj [("error", VStr (message err))]))).

Definition getAllCourses (req : Request) : prog Response :=
  let limit := orDefault (parseInt (q_limit (query req))) 10 in
  let page := orDefault (parseInt (q_page (query req))) 1 in
  let sort := if strictEq (q_sort (query req)) "desc" then DESC else ASC in
  populate <- optionalSplit (q_populate (query req)) ;;
  let includeModels : list entity := [] in
  let includeModels :=
    if includes populate "teacher" then push includeModels Teacher
    else includeModels in
  let includeModels :=
    if includes populate "student" then push includeModels Student
    else includeModels in
  try
    (total <- await (Count Course) ;;
     courses <- await (FindAll Course
                   {| fo_limit := limit;
                      fo_offset := mul (sub page (Fin 1)) limit;
                      fo_order := [("createdAt", sort)];
                      fo_include := includeModels |}) ;;
     Ret (res_json (VObj [("total", VNum (Fin total));
                     ("page", VNum page);
                     ("data", VArr courses);
                     ("totalPages", VNum (ceilDiv (Fin total) limit))])))
  catch (fun err =>
     Ret (res_status_json 500 (VObj [("error", VStr (message err))]))).

Definition getCourseById (req : Request) : prog Response :=
  try
    (course <- await (FindByPk Course (params_id req) [Student; Teacher]) ;;
     match course with
     | None => Ret (res_status_json 404 (VObj [("message", VStr "Not found")]))
     | Some course => Ret (res_json course)
     end)
  catch (fun err =>
     Ret (res_status_json 500 (VObj [("error", VStr (message err))]))).

Definition updateCourse (req : Request) : prog Response :=
  try
    (course <- await (FindByPk Course (params_id req) []) ;;
     match course with
     | None => Ret (res_status_json 404 (VObj [("message", VStr "Not found")]))
     | Some course =>
         course <- await (Update Course course (req_body req)) ;;
         Ret (res_json course)
     end)
  catch (fun err =>
     Ret (res_status_json 500 (VObj [("error", VStr (message err))]))).

Definition deleteCourse (req : Request) : prog Response :=
  try
    (course <- await (FindByPk Course (params_id req) []) ;;
     match course with
     | None => Ret (res_status_json 404 (VObj [("message", VStr "Not found")]))
     | Some course =>
         _ <- await (Destroy Course course) ;;
         Ret (res_json (VObj [("message", VStr "Deleted")]))
     end)
  catch (fun err =>
     Ret (res_status_json 500 (VObj [("error", VStr (message err))]))).

(** *** The teacher controller *)

Definition createTeacher (req : Request) : prog Response :=
  try
    (teacher <- await (Create Teacher (req_body req)) ;;
     Ret (res_status_json 201 teacher))
  catch (fun err =>
     Ret (res_status_json 500 (VObj [("error", VStr (message err))]))).

Definition getAllTeachers (req : Request) : prog Response :=
  let limit := orDefault (parseInt (q_limit (query req))) 10 in
  let page := orDefault (parseInt (q_page (query req))) 1 in
  let sort := if strictEq (q_sort (query req)) "desc" then DESC else ASC in
  populate <- optionalSplit (q_populate (query req)) ;;
  let includeModels : list entity := [] in
  let includeModels :=
    if includes populate "students" then push includeModels Student
    else includeModels in
  let includeModels :=
    if includes populate "courses" then push includeModels Course
    else includeModels in
  try
    (total <- await (Count Teacher) ;;
     teachers <- await (FindAll Teacher
                   {| fo_limit := limit;
                      fo_offset := mul (sub page (Fin 1)) limit;
                      fo_order := [("createdAt", sort)];
                      fo_include := includeModels |}) ;;
     Ret (res_json (VObj [("total", VNum (Fin total));
                     ("page", VNum page);
                     ("totalPages", VNum (ceilDiv (Fin total) limit));
                     ("data", VArr teachers)])))
  catch (fun err =>
     Ret (res_status_json 500 (VObj [("error", VStr (message err))]))).

Definition getTeacherById (req : Request) : prog Response :=
  try
    (teacher <- await (FindByPk Teacher (params_id req) [Course; Student]) ;;
     match teacher with
     | None => Ret (res_status_json 404 (VObj [("message", VStr "Not found")]))
     | Some teacher => Ret (res_json teacher)
     end)
  catch (fun err =>
     Ret (res_status_json 500 (VObj [("error", VStr (message err))]))).

Definition updateTeacher (req : Request) : prog Response :=
  try
    (teacher <- await (FindByPk Teacher (params_id req) []) ;;
     match teacher with
     | None => Ret (res_status_json 404 (VObj [("message", VStr "Not found")]))
     | Some teacher =>
         teacher <- await (Update Teacher teacher (req_body req)) ;;
         Ret (res_json teacher)
     end)
  catch (fun err =>
     Ret (res_status_json 500 (VObj [("error", VStr (message err))]))).

Definition deleteTeacher (req : Request) : prog Response :=
  try
    (teacher <- await (FindByPk Teacher (params_id req) []) ;;
     match teacher with
     | None => Ret (res_status_json 404 (VObj [("message", VStr "Not found")]))
     | Some teacher =>
         _ <- await (Destroy Teacher teacher) ;;
         Ret (res_json (VObj [("message", VStr "Deleted")]))
     end)
  catch (fun err =>
     Ret (res_status_json 500 (VObj [("error", VStr (message err))]))).

(** ** A reference persistence layer

    Modelled from the spec: the persistence layer ([../models/index.js]
    and the ORM behind it) is not among the sources; the specification
    lists its operations (create, count, findAll, findByPk, update,
    destroy). The handlers are verified against every persistence layer;
    this one serves to run them on concrete data.

    An in-memory store against which the handlers can be run: each model
    has a table of rows in creation order, a row being an object whose
    [id] field is its primary key. While [write_fault] is set the store
    refuses every write with that error, as a read-only database does.
    In a list fetch a negative or [NaN] limit or offset counts as zero
    and an infinite one as the number of rows. *)

Module Memory.

Record store := {
  rows : entity -> list value;
  write_fault : option Error
}.

Definition pkOf (row : value) : option string :=
  match row with
  | VObj fields =>
      match field "id" fields with
      | Some (VStr id) => Some id
      | _ => None
      end
  | _ => None
  end.

Definition hasPk (id : string) (row : value) : bool :=
  match pkOf row with
  | Some id' => String.eqb id id'
  | None => false
  end.

Definition samePk (a b : value) : bool :=
  match pkOf a with
  | Some id => hasPk id b
  | None => false
  end.

Definition entity_eqb (a b : entity) : bool :=
  match a, b with
  | Course, Course | Student, Student | Teacher, Teacher => true
  | _, _ => false
  end.

Definition setRows (s : store) (m : entity) (t : list value) : store :=
  {| rows := fun m' => if entity_eqb m m' then t else rows s m';
     write_fault := write_fault s |}.

(** [Object.assign]-like update of a row's fields. *)
Fixpoint setField (k : string) (v : value) (fields : list (string * value))
  : list (string * value) :=
  match fields with
  | [] => [(k, v)]
  | (k', v') :: rest =>
      if String.eqb k k' then (k, v) :: rest
      else (k', v') :: setField k v rest
  end.

Definition assign (row changes : value) : value :=
  match row, changes with
  | VObj fields, VObj cs =>
      VObj (fold_left (fun acc kv => setField (fst kv) (snd kv) acc) cs fields)
  | _, _ => row
  end.

Definition rowCount (n : number) (all : nat) : nat :=
  match n with
  | Fin z => if z <? Z.of_nat all then Z.to_nat z else all
  | Infinity => all
  | _ => 0%nat
  end.

Definition select (o : FindOptions) (t : list value) : list value :=
  let ordered := match fo_order o with
                 | (_, DESC) :: _ => rev t
                 | _ => t
                 end in
  firstn (rowCount (fo_limit o) (List.length t))
         (skipn (rowCount (fo_offset o) (List.length t)) ordered).

Definition write {X} (s : store) (k : outcome X * store) : outcome X * store :=
  match write_fault s with
  | Some e => (Rejected e, s)
  | None => k
  end.

Definition db : persistence store :=
  fun X c =>
    match c in dbCall X return store -> outcome X * store with
    | Create m b => fun s =>
        write s (Resolved b, setRows s m (rows s m ++ [b]))
    | Count m => fun s =>
        (Resolved (Z.of_nat (List.length (rows s m))), s)
    | FindAll m o => fun s =>
        (Resolved (select o (rows s m)), s)
    | FindByPk m id _ => fun s =>
        (Resolved (find (hasPk id) (rows s m)), s)
    | Update m inst b => fun s =>
        let inst' := assign inst b in
        write s (Resolved inst',
                 setRows s m (map (fun r => if samePk inst r then inst' else r)
                                  (rows s m)))
    | Destroy m inst => fun s =>
        write s (Resolved tt,
                 setRows s m (filter (fun r => negb (samePk inst r))
                                     (rows s m)))
    end.

(** A small fixture: every table holds the same two rows, so that the
    three controllers can be compared on equal data. *)
Definition row (id name : string) : value :=
  VObj [("id", VStr id); ("name", VStr name)].

Definition fixture : store :=
  {| rows := fun _ => [row "1" "Ada"; row "2" "Alan"];
     write_fault := None |}.

Definition readOnly (s : store) : store :=
  {| rows := rows s;
     write_fault :=
       Some {| message := "attempt to write a readonly database" |} |}.

End Memory.

(** ** Observations on a run *)

(** The [findAll] calls of a run, with their options. *)
Definition findAllCalls (t : list event) : list (entity * FindOptions) :=
  flat_map (fun ev => match fst ev with
                      | CFindAll m o => [(m, o)]
                      | _ => []
                      end) t.

(** The errors the persistence layer threw during a run. *)
Definition rejections (t : list event) : list Error :=
  flat_map (fun ev => match snd ev with
                      | Rejected e => [e]
                      | Resolved _ => []
                      end) t.

(** The run consisted of a count answered [total] and a list fetch
    answered [data], made with options [o]. *)
Definition answered {Store A} (r : run_result Store A)
  (m : entity) (total : Z) (o : FindOptions) (data : list value) : Prop :=
  trace r = [(CCount m, Resolved (ACount total));
             (CFindAll m o, Resolved (ARows data))].

(** The list handlers, each with the model it lists. *)
Definition listHandlers : list (entity * (Request -> prog Response)) :=
  [(Student, getAllStudents);
   (Course, getAllCourses);
   (Teacher, getAllTeachers)].

Definition notFound : Response :=
  {| status := 404; body := VObj [("message", VStr "Not found")] |}.

Definition internalFailure (e : Error) : Response :=
  {| status := 500; body := VObj [("error", VStr (message e))] |}.

(** The error contract of a by-id handler whose run is [r], for model [m]
    and primary key [id]: the handler always responds; it starts with the
    primary-key lookup; 404 with the fixed body exactly when that lookup
    found nothing; 500 with the error's message exactly when a call
    threw; 200 otherwise. *)
Definition errorContract {Store} (r : run_result Store Response)
  (m : entity) (id : string) : Prop :=
  exists resp,
    result r = Resolved resp /\
    (exists inc ans rest,
        trace r = (CFindByPk m id inc, ans) :: rest /\
        (status resp = 404 <-> ans = Resolved (AFound None))) /\
    (status resp = 404 -> resp = notFound) /\
    (forall e, In e (rejections (trace r)) -> resp = internalFailure e) /\
    (status resp = 500 -> exists e, In e (rejections (trace r))) /\
    (status resp = 200 \/ status resp = 404 \/ status resp = 500).

(** The primary-key lookup of [id] finds an entity. *)
Definition present {Store} (db : persistence Store) (s : Store)
  (m : entity) (id : string) : Prop :=
  exists inst, fst (db _ (FindByPk m id []) s) = Resolved (Some inst).

(** What [destroy] is for: an instance that was found under a key and
    then destroyed is no longer found under that key. *)
Definition destroyRemoves {Store} (db : persistence Store) : Prop :=
  forall m id inc inst s s1 s2,
    db _ (FindByPk m id inc) s = (Resolved (Some inst), s1) ->
    db _ (Destroy m inst) s1 = (Resolved tt, s2) ->
    forall inc', fst (db _ (FindByPk m id inc') s2) = Resolved None.

Definition byId (id : string) : Request :=
  {| query := {| q_limit := None; q_page := None;
                 q_sort := None; q_populate := None |};
     params_id := id;
     req_body := VNull |}.

(** A list request whose parameters are strings or absent. *)
Definition listRequest (page limit sort populate : option string) : Request :=
  {| query := {| q_limit := option_map QString limit;
                 q_page := option_map QString page;
                 q_sort := option_map QString sort;
                 q_populate := option_map QString populate |};
     params_id := "";
     req_body := VNull |}.

Definition firstPage : Request :=
  listRequest (Some "1") (Some "10") None None.

Definition populateStudents : Request :=
  listRequest None None None (Some "students").

(** [GET ...?populate=a&populate=b]: the repeated key arrives as an
    array. *)
Definition populateTwice : Request :=
  {| query := {| q_limit := None; q_page := None; q_sort := None;
                 q_populate := Some (QArray [QString "a"; QString "b"]) |};
     params_id := "";
     req_body := VNull |}.

(** The numeral 1 followed by 309 zeros: too large for a double. *)
Definition overflowing : string :=
  String "1" (String.concat "" (repeat "0" 309%nat)).

(** The [populate] parameter is a string or absent, so that
    [populate?.split(',')] does not throw. *)
Definition stringPopulate (q : Query) : Prop :=
  match q_populate q with
  | None | Some (QString _) => True
  | Some _ => False
  end.

(** ** The specification's ListQueryResolver *)

(** The allow-list of relation names of each entity type, in the order in
    which the relations are included. *)
Definition allowedRelations (m : entity) : list (string * entity) :=
  match m with
  | Student => [("teacher", Teacher); ("courses", Course)]
  | Course => [("teacher", Teacher); ("student", Student)]
  | Teacher => [("students", Student); ("courses", Course)]
  end.

Definition tokens (populate : option qvalue) : list string :=
  match populate with
  | Some (QString p) => split "," p
  | _ => []
  end.

(** relationsToInclude, in the specification's words: the relations of
    the allow-list whose name is among the tokens, in allow-list order. *)
Definition relationsToInclude (allowed : list (string * entity))
  (populate : option qvalue) : list entity :=
  map snd (filter (fun a => includes (tokens populate) (fst a)) allowed).

Definition limitOf (q : Query) : number :=
  orDefault (parseInt (q_limit q)) 10.

Definition pageOf (q : Query) : number :=
  orDefault (parseInt (q_page q)) 1.

Definition sortDirection (q : Query) : direction :=
  if strictEq (q_sort q) "desc" then DESC else ASC.

(** normalize(query, allowedRelations): the fetch specification
    [{limit, offset, sortDirection, relationsToInclude}], the sort being
    on the creation timestamp. *)
Definition normalize (q : Query) (allowed : list (string * entity))
  : FindOptions :=
  {| fo_limit := limitOf q;
     fo_offset := mul (sub (pageOf q) (Fin 1)) (limitOf q);
     fo_order := [("createdAt", sortDirection q)];
     fo_include := relationsToInclude allowed (q_populate q) |}.

(** A list request as the specification describes it: an unconditional
    count, then the list fetch with the normalised options, then the
    response built by [respond]; a failure of either call is reported as
    an internal failure. *)
Definition listRun {Store} (db : persistence Store) (m : entity)
  (o : FindOptions) (respond : Z -> list value -> value) (s : Store)
  : run_result Store Response :=
  let '(total, s1) := db _ (Count m) s in
  match total with
  | Rejected e =>
      {| result := Resolved (internalFailure e);
         final := s1;
         trace := [(CCount m, Rejected e)] |}
  | Resolved total =>
      let '(data, s2) := db _ (FindAll m o) s1 in
      match data with
      | Rejected e =>
          {| result := Resolved (internalFailure e);
             final := s2;
             trace := [(CCount m, Resolved (ACount total));
                       (CFindAll m o, Rejected e)] |}
      | Resolved data =>
          {| result := Resolved (res_json (respond total data));
             final := s2;
             trace := [(CCount m, Resolved (ACount total));
                       (CFindAll m o, Resolved (ARows data))] |}
      end
  end.

(** [n] is the ceiling of the quotient [a / b], for [b] other than zero:
    the least integer that is not below it. *)
Definition isCeiling (n a b : Z) : Prop :=
  (0 < b /\ (n - 1) * b < a <= n * b) \/
  (b < 0 /\ n * b <= a < (n - 1) * b).

(** [n] is the ceiling of [a / b] for a limit [b] as a number: of the
    quotient when [b] is finite, and 0 when [b] is infinite, the
    quotient then being zero. *)
Definition isCeilingOf (n a : Z) (b : number) : Prop :=
  match b with
  | Fin l => isCeiling n a l
  | Infinity | NegInfinity => n = 0
  | NaN => False
  end.

(** Integers that a double holds exactly, consecutively. *)
Definition safe (z : Z) : Prop := Z.abs z <= 2 ^ 53.

(** The envelope of the specification:
    [{total: totalCount, page, totalPages, data}]. *)
Definition envelope (totalCount : Z) (page limit : number)
  (data : list value) : value :=
  VObj [("total", VNum (Fin totalCount));
        ("page", VNum page);
        ("totalPages", VNum (ceilDiv (Fin totalCount) limit));
        ("data", VArr data)].

(** The object the course list handler builds from the same four values. *)
Definition courseEnvelope (totalCount : Z) (page limit : number)
  (data : list value) : value :=
  VObj [("total", VNum (Fin totalCount));
        ("page", VNum page);
        ("data", VArr data);
        ("totalPages", VNum (ceilDiv (Fin totalCount) limit))].


(** The delete and get-by-id handlers of each model. *)
Definition deleteAndGet
  : list (entity * (Request -> prog Response) * (Request -> prog Response)) :=
  [(Student, deleteStudent, getStudentById);
   (Course, deleteCourse, getCourseById);
   (Teacher, deleteTeacher, getTeacherById)].

(** ** The Standard Library's model of IEEE 754, for comparison *)

Module IEEE.

(** The double nearest to an integer, in the library's binary64. *)
Definition ofInt (z : Z) : spec_float := binary_normalize 53 1024 z 0 false.

(** A library double whose value is an integer, as a [number]. *)
Definition toNumber (f : spec_float) : option number :=
  match f with
  | S754_zero _ => Some (Fin 0)
  | S754_infinity s => Some (if s then NegInfinity else Infinity)
  | S754_nan => Some NaN
  | S754_finite s m e =>
      let sign := if s then -1 else 1 in
      if 0 <=? e then Some (Fin (sign * Z.pos m * 2 ^ e))
      else if Z.pos m mod 2 ^ (- e) =? 0
           then Some (Fin (sign * (Z.pos m / 2 ^ (- e))))
           else None
  end.

(** [Math.ceil] of a library double. *)
Definition ceil (f : spec_float) : number :=
  match f with
  | S754_zero _ => Fin 0
  | S754_infinity s => if s then NegInfinity else Infinity
  | S754_nan => NaN
  | S754_finite s m e =>
      if 0 <=? e then Fin ((if s then -1 else 1) * Z.pos m * 2 ^ e)
      else if s then Fin (- (Z.pos m / 2 ^ (- e)))
      else Fin (- ((- Z.pos m) / 2 ^ (- e)))
  end.

Definition sameRounding (z : Z) : bool :=
  match toNumber (ofInt z), roundInt z with
  | Some (Fin a), Fin b => a =? b
  | Some Infinity, Infinity | Some NegInfinity, NegInfinity => true
  | _, _ => false
  end.

Definition sameProduct (ab : Z * Z) : bool :=
  match toNumber (SFmul 53 1024 (ofInt (fst ab)) (ofInt (snd ab))),
        mul (roundInt (fst ab)) (roundInt (snd ab)) with
  | Some (Fin a), Fin b => a =? b
  | Some Infinity, Infinity | Some NegInfinity, NegInfinity => true
  | _, _ => false
  end.

Definition sameCeiling (ab : Z * Z) : bool :=
  match ceil (SFdiv 53 1024 (ofInt (fst ab)) (ofInt (snd ab))),
        ceilDiv (roundInt (fst ab)) (roundInt (snd ab)) with
  | Fin a, Fin b => a =? b
  | Infinity, Infinity | NegInfinity, NegInfinity => true
  | _, _ => false
  end.

End IEEE.

(** ** Statements that are compared with the code *)

(** The three list handlers emit one and the same envelope, with the
    fields in the order total, page, totalPages, data. *)
Definition envelopeParity : Prop :=
  forall (Store : Type) (db : persistence Store) (s : Store) (req : Request)
         (total : Z) (data : list value) (oS oC oT : FindOptions),
    answered (run db (getAllStudents req) s) Student total oS data ->
    answered (run db (getAllCourses req) s) Course total oC data ->
    answered (run db (getAllTeachers req) s) Teacher total oT data ->
    exists env,
      keys env = ["total"; "page"; "totalPages"; "data"] /\
      result (run db (getAllStudents req) s) = Resolved (res_json env) /\
      result (run db (getAllCourses req) s) = Resolved (res_json env) /\
      result (run db (getAllTeachers req) s) = Resolved (res_json env).

(** The limit a list handler works with is at least 1, and totalPages is
    the ceiling of total / limit. *)
Definition limitAtLeastOne : Prop :=
  forall m H, In (m, H) listHandlers ->
  forall (Store : Type) (db : persistence Store) (s s1 : Store)
         (req : Request) (total : Z),
    stringPopulate (query req) ->
    db _ (Count m) s = (Resolved total, s1) ->
    exists o,
      findAllCalls (trace (run db (H req) s)) = [(m, o)] /\
      leb (Fin 1) (fo_limit o) = true /\
      forall data,
        answered (run db (H req) s) m total o data ->
        exists resp n,
          result (run db (H req) s) = Resolved resp /\
          getField (body resp) "totalPages" = Some (VNum (Fin n)) /\
          isCeilingOf n total (fo_limit o).



(** Deleting an entity that is present always succeeds, and the entity is
    gone afterwards. *)
Definition deleteAlwaysSucceeds : Prop :=
  forall (Store : Type) (db : persistence Store),
    destroyRemoves db ->
    forall (s : Store) (id : string),
      present db s Teacher id ->
      let deleted := run db (deleteTeacher (byId id)) s in
      result deleted =
        Resolved (res_json (VObj [("message", VStr "Deleted")])) /\
      result (run db (getTeacherById (byId id)) (final deleted)) =
        Resolved notFound.

(** ** Handler tables and helpers for the further properties *)

Definition createHandlers : list (entity * (Request -> prog Response)) :=
  [(Student, createStudent);
   (Course, createCourse);
   (Teacher, createTeacher)].

(** The get-by-id handlers, each with its model and the relations it
    always includes. *)
Definition getHandlers
  : list (entity * (Request -> prog Response) * list entity) :=
  [(Student, getStudentById, [Course; Teacher]);
   (Course, getCourseById, [Student; Teacher]);
   (Teacher, getTeacherById, [Course; Student])].

Definition updateHandlers : list (entity * (Request -> prog Response)) :=
  [(Student, updateStudent);
   (Course, updateCourse);
   (Teacher, updateTeacher)].

Definition deleteHandlers : list (entity * (Request -> prog Response)) :=
  [(Student, deleteStudent);
   (Course, deleteCourse);
   (Teacher, deleteTeacher)].

(** The handlers behind the GET routes. *)
Definition readHandlers : list (entity * (Request -> prog Response)) :=
  listHandlers ++ map (fun h => (fst (fst h), snd (fst h))) getHandlers.

Definition allHandlers : list (entity * (Request -> prog Response)) :=
  createHandlers ++ readHandlers ++ updateHandlers ++ deleteHandlers.

(** A call that only reads, and reads model [m]. *)
Definition readsOnly (m : entity) (c : call) : Prop :=
  match c with
  | CCount m' => m' = m
  | CFindAll m' _ => m' = m
  | CFindByPk m' _ _ => m' = m
  | _ => False
  end.

Fixpoint contains (c : ascii) (s : string) : bool :=
  match s with
  | EmptyString => false
  | String c' r => Ascii.eqb c' c || contains c r
  end.


(** The decimal numeral of a natural number, as a client writes it. *)
Definition decimal (n : nat) : string :=
  NilZero.string_of_uint (Nat.to_uint n).

Fixpoint digitsOf (d : Decimal.uint) : list Z :=
  match d with
  | Decimal.Nil => []
  | Decimal.D0 d => 0 :: digitsOf d
  | Decimal.D1 d => 1 :: digitsOf d
  | Decimal.D2 d => 2 :: digitsOf d
  | Decimal.D3 d => 3 :: digitsOf d
  | Decimal.D4 d => 4 :: digitsOf d
  | Decimal.D5 d => 5 :: digitsOf d
  | Decimal.D6 d => 6 :: digitsOf d
  | Decimal.D7 d => 7 :: digitsOf d
  | Decimal.D8 d => 8 :: digitsOf d
  | Decimal.D9 d => 9 :: digitsOf d
  end.

(** * Properties *)

(** ** The JavaScript primitives on examples *)

Example parseInt_3 : parseInt (Some (QString "3")) = Fin 3.
Proof. reflexivity. Qed.
Example parseInt_neg : parseInt (Some (QString "-1")) = Fin (-1).
Proof. reflexivity. Qed.
Example parseInt_12px : parseInt (Some (QString " 12px")) = Fin 12.
Proof. reflexivity. Qed.
Example parseInt_hex : parseInt (Some (QString "0x1f")) = Fin 31.
Proof. reflexivity. Qed.
Example parseInt_abc : parseInt (Some (QString "abc")) = NaN.
Proof. reflexivity. Qed.
Example parseInt_absent : parseInt None = NaN.
Proof. reflexivity. Qed.
Example parseInt_array :
  parseInt (Some (QArray [QString "5"; QString "6"])) = Fin 5.
Proof. reflexivity. Qed.
Example parseInt_object : parseInt (Some (QObject [])) = NaN.
Proof. reflexivity. Qed.
Example parseInt_rounds :
  parseInt (Some (QString "9007199254740993")) = Fin 9007199254740992.
Proof. reflexivity. Qed.
Example parseInt_overflows :
  parseInt (Some (QString overflowing)) = Infinity.
Proof. vm_compute. reflexivity. Qed.
Example round_tie_up : roundInt 9007199254740995 = Fin 9007199254740996.
Proof. reflexivity. Qed.
Example round_largest :
  roundInt (2 ^ 1024 - 2 ^ 970 - 1) = Fin (2 ^ 1024 - 2 ^ 971).
Proof. vm_compute. reflexivity. Qed.
Example round_to_infinity : roundInt (2 ^ 1024 - 2 ^ 970) = Infinity.
Proof. vm_compute. reflexivity. Qed.
Example roundInt_as_library :
  forallb IEEE.sameRounding
    [0; 1; -1; 10; 2 ^ 53; 2 ^ 53 + 1; 2 ^ 53 + 3; - (2 ^ 53) - 1;
     9007199515875289; 10 ^ 23; - (10 ^ 40) + 7; 3 ^ 400 + 1;
     2 ^ 1024 - 2 ^ 970 - 1; 2 ^ 1024 - 2 ^ 970; 10 ^ 309; - (10 ^ 309)]
  = true.
Proof. vm_compute. reflexivity. Qed.
Example mul_as_library :
  forallb IEEE.sameProduct
    [(94906267, 94906267); (0, 5); (-2, 10); (3, -7);
     (2 ^ 53 - 1, 2 ^ 53 - 1); (10 ^ 200, 10 ^ 200); (- (10 ^ 200), 10 ^ 200);
     (123456789123, 987654321987); (2 ^ 600 + 1, 3); (4503599627370497, 3)]
  = true.
Proof. vm_compute. reflexivity. Qed.
Example ceilDiv_as_library :
  forallb IEEE.sameCeiling
    [(23, 10); (23, -5); (2, -5); (20, 10); (1, 3); (2, 3); (0, 7);
     (12, 5); (9007199254740991, 9007199254740990); (9007199254740991, 2);
     (9007199254740991, 9007199254740992); (9007199254740990, -9007199254740991);
     (1, 2 ^ 1023); (2, 10 ^ 308); (7, - (10 ^ 300)); (6004799503160661, 3);
     (4503599627370497, 4503599627370496); (100, 2 ^ 53 + 2); (1, 10)]
  = true.
Proof. vm_compute. reflexivity. Qed.
Example mul_rounds :
  mul (sub (Fin 94906268) (Fin 1)) (Fin 94906267) = Fin 9007199515875288.
Proof. reflexivity. Qed.
Example mul_zero_infinity : mul (Fin 0) Infinity = NaN.
Proof. reflexivity. Qed.
Example split_ex : split "," "a,,b" = ["a"; ""; "b"].
Proof. reflexivity. Qed.
Example split_empty : split "," "" = [""].
Proof. reflexivity. Qed.
Example ceil_23_10 : ceilDiv (Fin 23) (Fin 10) = Fin 3.
Proof. reflexivity. Qed.
Example ceil_neg : ceilDiv (Fin 23) (Fin (-5)) = Fin (-4).
Proof. reflexivity. Qed.
Example ceil_third : ceilDiv (Fin 1) (Fin 3) = Fin 1.
Proof. reflexivity. Qed.
Example ceil_infinite_limit : ceilDiv (Fin 2) Infinity = Fin 0.
Proof. reflexivity. Qed.

(** ** Rounding *)

Section RoundHalfEven.
Variables n d : Z.
Hypothesis Hn : 0 <= n.
Hypothesis Hd : 0 < d.

Lemma roundHalfEven_cases :
  let q := n / d in
  n = d * q + n mod d /\ 0 <= n mod d < d /\
  (roundHalfEven n d = q \/ roundHalfEven n d = q + 1) /\
  (2 * (n mod d) < d -> roundHalfEven n d = q) /\
  (d < 2 * (n mod d) -> roundHalfEven n d = q + 1).
Proof.
  intros q. unfold roundHalfEven. fold q.
  pose proof (Z.div_mod n d ltac:(lia)) as Hdm.
  pose proof (Z.mod_pos_bound n d Hd) as Hr.
  fold q in Hdm.
  split; [exact Hdm|]. split; [exact Hr|].
  destruct (Z.ltb_spec (2 * (n mod d)) d);
    destruct (Z.ltb_spec d (2 * (n mod d)));
    destruct (Z.even q); repeat split; auto; intros; lia.
Qed.

Lemma roundHalfEven_le M : n <= M * d -> roundHalfEven n d <= M.
Proof.
  intros H. destruct roundHalfEven_cases as [Hdm [Hr [Hc [Hlo Hhi]]]].
  destruct (Z_lt_le_dec (n / d) M) as [Hlt|Hge]; [lia|].
  assert (n / d = M) by nia.
  assert (n mod d = 0) by nia.
  rewrite Hlo by lia. lia.
Qed.

Lemma roundHalfEven_ge M : M * d <= n -> M <= roundHalfEven n d.
Proof.
  intros H. destruct roundHalfEven_cases as [Hdm [Hr [Hc _]]].
  assert (M <= n / d) by nia. lia.
Qed.

Lemma roundHalfEven_gt M :
  M * d <= n -> d < 2 * (n - M * d) -> M < roundHalfEven n d.
Proof.
  intros H Hgap. destruct roundHalfEven_cases as [Hdm [Hr [Hc [Hlo Hhi]]]].
  assert (M <= n / d) by nia.
  destruct (Z.eq_dec M (n / d)) as [E|E]; [|lia].
  rewrite Hhi; [lia|]. nia.
Qed.

Lemma roundHalfEven_lt M :
  n <= M * d -> d < 2 * (M * d - n) -> roundHalfEven n d < M.
Proof.
  intros H Hgap. destruct roundHalfEven_cases as [Hdm [Hr [Hc [Hlo Hhi]]]].
  assert (n / d < M) by nia.
  destruct (Z.eq_dec (n / d + 1) M) as [E|E]; [|lia].
  rewrite Hlo; [lia|]. nia.
Qed.
End RoundHalfEven.

Lemma roundHalfEven_one n : roundHalfEven n 1 = n.
Proof.
  unfold roundHalfEven. rewrite Z.div_1_r, Z.mod_1_r. reflexivity.
Qed.

Lemma roundInt_exact z : Z.abs z <= 2 ^ 53 -> roundInt z = Fin z.
Proof.
  intros Hz. unfold roundInt.
  assert (Hlog : Z.log2 (Z.abs z) <= 53).
  { rewrite <- (Z.log2_pow2 53) by lia. now apply Z.log2_le_mono. }
  destruct (Z.eq_dec (Z.log2 (Z.abs z)) 53) as [E|E].
  - assert (Z.abs z = 2 ^ 53).
    { pose proof (Z.log2_spec (Z.abs z)) as Hs.
      assert (0 < Z.abs z) by (destruct (Z.abs z) eqn:?; cbn in E; lia).
      specialize (Hs H). rewrite E in Hs. lia. }
    rewrite E, H. cbn -[Z.mul Z.sgn].
    change (roundHalfEven 9007199254740992 2) with 4503599627370496.
    cbn -[Z.sgn]. f_equal. lia.
  - rewrite Z.max_l by lia. rewrite Z.pow_0_r, roundHalfEven_one, Z.mul_1_r.
    destruct (Z.leb_spec (2 ^ 1024) (Z.abs z)) as [Hbig|_].
    + assert (2 ^ 53 < 2 ^ 1024) by (apply Z.pow_lt_mono_r; lia). lia.
    + f_equal. lia.
Qed.

Lemma roundInt_bound z v : roundInt z = Fin v -> Z.abs v < 2 ^ 1024.
Proof.
  unfold roundInt.
  set (w := roundHalfEven _ _ * _).
  destruct (Z.leb_spec (2 ^ 1024) w) as [|Hw];
    [destruct (z <? 0); discriminate|].
  intros E. inversion E; subst v.
  assert (0 <= w).
  { unfold w. apply Z.mul_nonneg_nonneg; [|apply Z.pow_nonneg; lia].
    apply roundHalfEven_ge; lia. }
  destruct z; cbn [Z.sgn]; lia.
Qed.

(** ** The leading bit of a quotient *)

Lemma ilog2_lower n d :
  0 < n -> 0 < d ->
  2 ^ Z.max (ilog2 n d) 0 * d <= 2 ^ Z.max (- ilog2 n d) 0 * n.
Proof.
  intros Hn Hd. unfold ilog2.
  set (k := Z.log2 n - Z.log2 d).
  destruct (Z.leb_spec (2 ^ Z.max k 0 * d) (2 ^ Z.max (- k) 0 * n)) as [H|H];
    [exact H|].
  pose proof (Z.log2_spec n Hn) as [Hn1 Hn2].
  pose proof (Z.log2_spec d Hd) as [Hd1 Hd2].
  pose proof (Z.log2_nonneg n). pose proof (Z.log2_nonneg d).
  rewrite Z.pow_succ_r in Hn2, Hd2 by assumption.
  destruct (Z_lt_le_dec 0 k) as [Hk|Hk].
  - rewrite Z.max_l, Z.max_r by lia.
    replace (Z.log2 n) with (k - 1 + 1 + Z.log2 d) in Hn1 by lia.
    rewrite !Z.pow_add_r in Hn1 by lia.
    assert (0 < 2 ^ (k - 1)) by (apply Z.pow_pos_nonneg; lia).
    change (2 ^ 0) with 1. change (2 ^ 1) with 2 in Hn1. nia.
  - rewrite Z.max_r, Z.max_l by lia.
    replace (Z.log2 d) with (Z.log2 n + (- k)) in Hd2 by lia.
    rewrite Z.pow_add_r in Hd2 by lia.
    replace (- (k - 1)) with (- k + 1) by lia.
    rewrite Z.pow_add_r by lia.
    assert (0 < 2 ^ (- k)) by (apply Z.pow_pos_nonneg; lia).
    change (2 ^ 0) with 1. change (2 ^ 1) with 2. nia.
Qed.

Lemma ilog2_upper n d :
  0 < n -> 0 < d ->
  2 ^ Z.max (- (ilog2 n d + 1)) 0 * n < 2 ^ Z.max (ilog2 n d + 1) 0 * d.
Proof.
  intros Hn Hd. unfold ilog2.
  set (k := Z.log2 n - Z.log2 d).
  destruct (Z.leb_spec (2 ^ Z.max k 0 * d) (2 ^ Z.max (- k) 0 * n)) as [_|H].
  - pose proof (Z.log2_spec n Hn) as [_ Hn2].
    pose proof (Z.log2_spec d Hd) as [Hd1 _].
    pose proof (Z.log2_nonneg n). pose proof (Z.log2_nonneg d).
    destruct (Z_le_gt_dec 0 (k + 1)) as [Hk|Hk].
    + rewrite Z.max_r, Z.max_l by lia. change (2 ^ 0) with 1.
      replace (Z.succ (Z.log2 n)) with (k + 1 + Z.log2 d) in Hn2 by lia.
      rewrite Z.pow_add_r in Hn2 by lia.
      assert (0 < 2 ^ (k + 1)) by (apply Z.pow_pos_nonneg; lia). nia.
    + rewrite Z.max_l, Z.max_r by lia. change (2 ^ 0) with 1.
      replace (Z.log2 d) with (- (k + 1) + Z.succ (Z.log2 n)) in Hd1 by lia.
      rewrite Z.pow_add_r in Hd1 by lia.
      assert (0 < 2 ^ (- (k + 1))) by (apply Z.pow_pos_nonneg; lia). nia.
  - replace (k - 1 + 1) with k by lia. exact H.
Qed.

(** ** The ceiling of a quotient of doubles *)

Lemma ceilDyadic_nonpos neg m e :
  e <= 0 ->
  ceilDyadic neg m e =
  if neg then - (m / 2 ^ (- e)) else - ((- m) / 2 ^ (- e)).
Proof.
  intros He. unfold ceilDyadic.
  destruct (Z.leb_spec 0 e) as [H0|H0]; [|reflexivity].
  assert (e = 0) by lia. subst e. cbn [Z.opp]. change (2 ^ 0) with 1.
  rewrite !Z.div_1_r. destruct neg; lia.
Qed.

Lemma ceil_between m P c :
  0 < P -> (c - 1) * P < m <= c * P -> - ((- m) / P) = c.
Proof.
  intros HP H.
  pose proof (Z.div_mod (- m) P ltac:(lia)) as Hdm.
  pose proof (Z.mod_pos_bound (- m) P HP) as Hr.
  nia.
Qed.

Lemma floor_between m P f : 0 < P -> f * P <= m < (f + 1) * P -> m / P = f.
Proof.
  intros HP H.
  pose proof (Z.div_mod m P ltac:(lia)) as Hdm.
  pose proof (Z.mod_pos_bound m P HP) as Hr.
  nia.
Qed.

Lemma roundQuotient_safe t d :
  0 < t < 2 ^ 53 -> 0 < d < 2 ^ 1024 ->
  exists m P,
    0 < P /\ d < 2 * P /\
    m = roundHalfEven (t * P) d /\
    forall neg,
      ceilDyadic neg (fst (roundQuotient t d)) (snd (roundQuotient t d))
      = if neg then - (m / P) else - ((- m) / P).
Proof.
  intros Ht Hd. unfold roundQuotient. cbn [fst snd].
  pose proof (ilog2_lower t d ltac:(lia) ltac:(lia)) as Hlow.
  set (k := ilog2 t d) in *.
  assert (Hk : k <= 52).
  { destruct (Z_le_gt_dec k 52) as [|Hbig]; [assumption|exfalso].
    rewrite Z.max_l, Z.max_r in Hlow by lia. change (2 ^ 0) with 1 in Hlow.
    assert (2 ^ 53 <= 2 ^ k) by (apply Z.pow_le_mono_r; lia). nia. }
  set (e := Z.max (k - 52) (- 1074)).
  assert (He : e <= 0) by (unfold e; lia).
  rewrite (Z.max_l (- e) 0), (Z.max_r e 0) by lia.
  change (2 ^ 0) with 1. rewrite Z.mul_1_r.
  assert (HP : 0 < 2 ^ (- e)) by (apply Z.pow_pos_nonneg; lia).
  exists (roundHalfEven (t * 2 ^ (- e)) d), (2 ^ (- e)).
  split; [exact HP|]. split.
  - destruct (Z_le_gt_dec (- 1074) (k - 52)) as [Hc|Hc].
    + assert (E : e = k - 52) by (unfold e; lia).
      rewrite E. replace (- (k - 52)) with (52 - k) by lia.
      assert (H53 : 2 * 2 ^ (52 - k) = 2 ^ (53 - k)).
      { replace (53 - k) with (1 + (52 - k)) by lia.
        rewrite Z.pow_add_r by lia. reflexivity. }
      rewrite H53.
      destruct (Z_le_gt_dec 0 k) as [Hk0|Hk0].
      * rewrite Z.max_l, Z.max_r in Hlow by lia. change (2 ^ 0) with 1 in Hlow.
        assert (Hs : 2 ^ 53 = 2 ^ k * 2 ^ (53 - k)).
        { rewrite <- Z.pow_add_r by lia. f_equal. lia. }
        assert (0 < 2 ^ k) by (apply Z.pow_pos_nonneg; lia).
        nia.
      * rewrite Z.max_r, Z.max_l in Hlow by lia. change (2 ^ 0) with 1 in Hlow.
        assert (Hs : 2 ^ (53 - k) = 2 ^ (- k) * 2 ^ 53).
        { rewrite <- Z.pow_add_r by lia. f_equal. lia. }
        assert (0 < 2 ^ (- k)) by (apply Z.pow_pos_nonneg; lia).
        nia.
    + assert (E : e = - 1074) by (unfold e; lia).
      rewrite E. change (- - 1074) with 1074.
      assert (2 ^ 1024 < 2 * 2 ^ 1074).
      { change (2 * 2 ^ 1074) with (2 ^ 1075). apply Z.pow_lt_mono_r; lia. }
      lia.
  - split; [reflexivity|]. intros neg. now apply ceilDyadic_nonpos.
Qed.

Lemma ceilDiv_ceiling t l :
  0 <= t < 2 ^ 53 -> l <> 0 -> Z.abs l < 2 ^ 1024 ->
  exists n, ceilDiv (Fin t) (Fin l) = Fin n /\ isCeiling n t l.
Proof.
  intros Ht Hl Hbound. unfold ceilDiv.
  destruct (Z.eqb_spec l 0) as [|_]; [contradiction|].
  destruct (Z.eqb_spec t 0) as [->|Ht0].
  { exists 0. split; [reflexivity|]. unfold isCeiling. lia. }
  rewrite (Z.abs_eq t) by lia.
  destruct (roundQuotient_safe t (Z.abs l) ltac:(lia) ltac:(lia))
    as [m [P [HP [HdP [Hm Hceil]]]]].
  destruct (roundQuotient t (Z.abs l)) as [m' e'] eqn:Eq.
  cbn [fst snd] in Hceil.
  rewrite Hceil. clear Hceil Eq m' e'.
  assert (Hneg : (t <? 0) = false) by (apply Z.ltb_ge; lia).
  rewrite Hneg.
  assert (H253 : 0 < 2 ^ 53) by (apply Z.pow_pos_nonneg; lia).
  destruct (Z.ltb_spec l 0) as [Hln|Hlp]; cbn [Bool.eqb negb].
  - (* negative limit *)
    set (d := Z.abs l) in *. assert (Hd : d = - l) by (unfold d; lia).
    set (f := t / d).
    pose proof (Z.div_mod t d ltac:(lia)) as Hdm.
    pose proof (Z.mod_pos_bound t d ltac:(lia)) as Hr. fold f in Hdm.
    assert (Hlo : f * P <= m).
    { rewrite Hm. apply roundHalfEven_ge; nia. }
    assert (Hhi : m < (f + 1) * P).
    { rewrite Hm. apply roundHalfEven_lt; try nia. }
    rewrite (floor_between m P f HP (conj Hlo Hhi)).
    assert (0 <= f <= t) by nia.
    exists (- f). split; [apply roundInt_exact; lia|].
    unfold isCeiling. right. nia.
  - (* positive limit *)
    set (d := Z.abs l) in *. assert (Hd : d = l) by (unfold d; lia).
    set (c := - ((- t) / d)).
    pose proof (Z.div_mod (- t) d ltac:(lia)) as Hdm.
    pose proof (Z.mod_pos_bound (- t) d ltac:(lia)) as Hr.
    assert (Hc : (c - 1) * d < t <= c * d) by (unfold c; nia).
    assert (Hhi : m <= c * P).
    { rewrite Hm. apply roundHalfEven_le; nia. }
    assert (Hlo : (c - 1) * P < m).
    { rewrite Hm. apply roundHalfEven_gt; try nia. }
    rewrite (ceil_between m P c HP (conj Hlo Hhi)).
    assert (0 <= c <= t) by nia.
    exists c. split; [apply roundInt_exact; lia|].
    unfold isCeiling. left. nia.
Qed.

(** ** Running the handlers *)

Arguments parseInt : simpl never.
Arguments orDefault : simpl never.
Arguments split : simpl never.
Arguments includes : simpl never.
Arguments ceilDiv : simpl never.
Arguments strictEq : simpl never.
Arguments mul : simpl never.
Arguments sub : simpl never.
Arguments roundInt : simpl never.

(** Case analysis on the answers of the persistence layer along a run. *)
Ltac answer_calls :=
  repeat match goal with
         | |- context [let '(_, _) := ?db _ ?c ?s in _] =>
             let r := fresh "r" in
             let s' := fresh "s" in
             let E := fresh "E" in
             destruct (db _ c s) as [r s'] eqn:E; destruct r; cbn
         | |- context [match ?o with Some _ => _ | None => _ end] =>
             is_var o; destruct o; cbn
         end.

Ltac run_handler h := unfold h; cbn; answer_calls.

Section ByIdHandlers.
Context {Store : Type} (db : persistence Store).

Ltac contract :=
  unfold errorContract; eexists; split; [reflexivity|];
  cbn; unfold notFound, internalFailure, res_status_json, res_json;
  repeat split;
  try (do 3 eexists; split; [reflexivity|]; cbn; split; intro; 
       try discriminate; try reflexivity; try congruence);
  cbn; intros;
  try discriminate; try tauto; try lia;
  try match goal with
      | H : _ \/ _ |- _ => destruct H; [subst; reflexivity | tauto]
      end;
  try (eexists; left; reflexivity).

Lemma getStudentById_contract s req :
  errorContract (run db (getStudentById req) s) Student (params_id req).
Proof. run_handler getStudentById; contract. Qed.

Lemma updateStudent_contract s req :
  errorContract (run db (updateStudent req) s) Student (params_id req).
Proof. run_handler updateStudent; contract. Qed.

Lemma deleteStudent_contract s req :
  errorContract (run db (deleteStudent req) s) Student (params_id req).
Proof. run_handler deleteStudent; contract. Qed.

Lemma getCourseById_contract s req :
  errorContract (run db (getCourseById req) s) Course (params_id req).
Proof. run_handler getCourseById; contract. Qed.

Lemma updateCourse_contract s req :
  errorContract (run db (updateCourse req) s) Course (params_id req).
Proof. run_handler updateCourse; contract. Qed.

Lemma deleteCourse_contract s req :
  errorContract (run db (deleteCourse req) s) Course (params_id req).
Proof. run_handler deleteCourse; contract. Qed.

Lemma getTeacherById_contract s req :
  errorContract (run db (getTeacherById req) s) Teacher (params_id req).
Proof. run_handler getTeacherById; contract. Qed.

Lemma updateTeacher_contract s req :
  errorContract (run db (updateTeacher req) s) Teacher (params_id req).
Proof. run_handler updateTeacher; contract. Qed.

Lemma deleteTeacher_contract s req :
  errorContract (run db (deleteTeacher req) s) Teacher (params_id req).
Proof. run_handler deleteTeacher; contract. Qed.

End ByIdHandlers.

(** C3. Whatever the persistence layer answers, each get-by-id, update and
    delete handler of the three controllers responds, and its response
    follows the error contract: 404 with the body [{message: "Not found"}]
    exactly when the primary-key lookup of the request's id found nothing,
    500 with the thrown error's message as [{error: ...}] exactly when a
    persistence call threw, and 200 in every other case. *)
Theorem by_id_error_contract :
  forall (Store : Type) (db : persistence Store) (s : Store) (req : Request),
    let id := params_id req in
    (errorContract (run db (getStudentById req) s) Student id /\
     errorContract (run db (updateStudent req) s) Student id /\
     errorContract (run db (deleteStudent req) s) Student id) /\
    (errorContract (run db (getCourseById req) s) Course id /\
     errorContract (run db (updateCourse req) s) Course id /\
     errorContract (run db (deleteCourse req) s) Course id) /\
    (errorContract (run db (getTeacherById req) s) Teacher id /\
     errorContract (run db (updateTeacher req) s) Teacher id /\
     errorContract (run db (deleteTeacher req) s) Teacher id).
Proof.
  intros Store db s req id; subst id.
  repeat split;
    auto using getStudentById_contract, updateStudent_contract,
      deleteStudent_contract, getCourseById_contract, updateCourse_contract,
      deleteCourse_contract, getTeacherById_contract, updateTeacher_contract,
      deleteTeacher_contract.
Qed.

(** ** The list handlers refine the ListQueryResolver *)

Section ListHandlers.
Context {Store : Type} (db : persistence Store).

Ltac list_run h :=
  intros q Hq; subst q; unfold stringPopulate in Hq;
  unfold h, listRun, normalize, relationsToInclude, tokens,
    limitOf, pageOf, sortDirection, envelope, courseEnvelope,
    internalFailure, res_status_json, push;
  destruct (q_populate (query _)) as [[p|items|fields]|];
  try contradiction; cbn;
  repeat match goal with
         | |- context [includes ?t ?x] => destruct (includes t x); cbn
         end;
  answer_calls; reflexivity.

Lemma getAllStudents_run s req :
  let q := query req in
  stringPopulate q ->
  run db (getAllStudents req) s =
  listRun db Student (normalize q (allowedRelations Student))
    (fun total data => envelope total (pageOf q) (limitOf q) data) s.
Proof. list_run getAllStudents. Qed.

Lemma getAllCourses_run s req :
  let q := query req in
  stringPopulate q ->
  run db (getAllCourses req) s =
  listRun db Course (normalize q (allowedRelations Course))
    (fun total data => courseEnvelope total (pageOf q) (limitOf q) data) s.
Proof. list_run getAllCourses. Qed.

Lemma getAllTeachers_run s req :
  let q := query req in
  stringPopulate q ->
  run db (getAllTeachers req) s =
  listRun db Teacher (normalize q (allowedRelations Teacher))
    (fun total data => envelope total (pageOf q) (limitOf q) data) s.
Proof. list_run getAllTeachers. Qed.

Ltac list_throw h :=
  intros Hq; unfold stringPopulate in Hq; unfold h;
  destruct (q_populate (query _)) as [[p|items|fields]|];
  try (exfalso; apply Hq; exact I); reflexivity.

Lemma getAllStudents_throw s req :
  ~ stringPopulate (query req) ->
  run db (getAllStudents req) s =
  {| result := Rejected splitFailure; final := s; trace := [] |}.
Proof. list_throw getAllStudents. Qed.

Lemma getAllCourses_throw s req :
  ~ stringPopulate (query req) ->
  run db (getAllCourses req) s =
  {| result := Rejected splitFailure; final := s; trace := [] |}.
Proof. list_throw getAllCourses. Qed.

Lemma getAllTeachers_throw s req :
  ~ stringPopulate (query req) ->
  run db (getAllTeachers req) s =
  {| result := Rejected splitFailure; final := s; trace := [] |}.
Proof. list_throw getAllTeachers. Qed.
End ListHandlers.

Lemma stringPopulate_dec q : stringPopulate q \/ ~ stringPopulate q.
Proof.
  unfold stringPopulate. destruct (q_populate q) as [[p|items|fields]|]; tauto.
Qed.


Lemma orDefault_truthy z d : z <> 0 -> orDefault (Fin z) d = Fin z.
Proof. destruct z; intros; [contradiction | reflexivity | reflexivity]. Qed.

Lemma orDefault_not_falsy n d :
  d <> 0 -> orDefault n d <> NaN /\ orDefault n d <> Fin 0.
Proof.
  intros Hd. unfold orDefault.
  destruct n as [| | |[| |]]; split; try discriminate; congruence.
Qed.

Lemma parseIntString_bound s v :
  parseIntString s = Fin v -> Z.abs v < 2 ^ 1024.
Proof.
  unfold parseIntString.
  match goal with
  | |- context [let '(_, _) := ?x in _] => destruct x as [R str]
  end.
  destruct (radixDigits R str); [discriminate|].
  apply roundInt_bound.
Qed.

(** A finite limit or page after the fallback is a double other than
    zero. *)
Lemma orDefault_parseInt_finite v d l :
  d <> 0 -> Z.abs d < 2 ^ 1024 ->
  orDefault (parseInt v) d = Fin l -> l <> 0 /\ Z.abs l < 2 ^ 1024.
Proof.
  intros Hd Hb E.
  destruct (orDefault_not_falsy (parseInt v) d Hd) as [_ Hnz].
  split; [intros ->; now apply Hnz|].
  unfold orDefault in E.
  destruct (parseInt v) as [| | |z] eqn:Ep; try discriminate.
  - inversion E; subst. exact Hb.
  - destruct z; inversion E; subst; try exact Hb;
      now apply (parseIntString_bound _ _ Ep).
Qed.

Lemma sub_exact a b : safe (a - b) -> sub (Fin a) (Fin b) = Fin (a - b).
Proof. intros H. unfold sub. now apply roundInt_exact. Qed.

Lemma mul_exact a b : safe (a * b) -> mul (Fin a) (Fin b) = Fin (a * b).
Proof. intros H. unfold mul. now apply roundInt_exact. Qed.

(** ** What a list handler asks and answers *)

Lemma listHandlers_run m H :
  In (m, H) listHandlers ->
  forall (Store : Type) (db : persistence Store) (s : Store) (req : Request),
  stringPopulate (query req) ->
  exists respond,
    run db (H req) s =
      listRun db m (normalize (query req) (allowedRelations m)) respond s /\
    (forall total data,
        getField (respond total data) "total" = Some (VNum (Fin total)) /\
        getField (respond total data) "page"
          = Some (VNum (pageOf (query req))) /\
        getField (respond total data) "totalPages"
          = Some (VNum (ceilDiv (Fin total) (limitOf (query req)))) /\
        getField (respond total data) "data" = Some (VArr data)).
Proof.
  intros HIn Store db s req Hq.
  destruct HIn as [E|[E|[E|[]]]]; inversion E; subst; clear E;
    eexists; (split;
      [first [now apply getAllStudents_run | now apply getAllCourses_run
             | now apply getAllTeachers_run]
      | intros; cbn; repeat split]).
Qed.

Lemma listHandlers_throw m H :
  In (m, H) listHandlers ->
  forall (Store : Type) (db : persistence Store) (s : Store) (req : Request),
  ~ stringPopulate (query req) ->
  run db (H req) s =
  {| result := Rejected splitFailure; final := s; trace := [] |}.
Proof.
  intros HIn Store db s req Hq.
  destruct HIn as [E|[E|[E|[]]]]; inversion E; subst; clear E;
    first [now apply getAllStudents_throw | now apply getAllCourses_throw
          | now apply getAllTeachers_throw].
Qed.


Lemma listRun_query {Store} (db : persistence Store) m o respond s total s1 :
  db _ (Count m) s = (Resolved total, s1) ->
  findAllCalls (trace (listRun db m o respond s)) = [(m, o)].
Proof.
  intros E. unfold listRun. rewrite E.
  destruct (db _ (FindAll m o) s1) as [[data|e] s2]; reflexivity.
Qed.

Lemma listRun_answered {Store} (db : persistence Store) m o respond s
      total o' data :
  answered (listRun db m o respond s) m total o' data ->
  o' = o /\
  result (listRun db m o respond s) = Resolved (res_json (respond total data)).
Proof.
  unfold answered, listRun.
  destruct (db _ (Count m) s) as [[t|e] s1]; cbn; [|discriminate].
  destruct (db _ (FindAll m o) s1) as [[d|e] s2]; cbn; [|discriminate].
  intros E. inversion E; subst. split; reflexivity.
Qed.

(** A run that was answered by the persistence layer got past the
    split of [populate]. *)
Lemma answered_stringPopulate m H :
  In (m, H) listHandlers ->
  forall (Store : Type) (db : persistence Store) (s : Store) (req : Request)
         total o data,
    answered (run db (H req) s) m total o data ->
    stringPopulate (query req).
Proof.
  intros HIn Store db s req total o data Hans.
  destruct (stringPopulate_dec (query req)) as [Hq|Hq]; [exact Hq|].
  unfold answered in Hans.
  rewrite (listHandlers_throw m H HIn Store db s req Hq) in Hans.
  discriminate.
Qed.

Ltac use_list_run HIn Hq db s req respond E R :=
  destruct (listHandlers_run _ _ HIn _ db s req Hq) as [respond [E R]];
  rewrite E.

(** ** Eager loading *)







Lemma split_empty_string sep : split sep "" = [""].
Proof. reflexivity. Qed.

Lemma split_String sep c r :
  split sep (String c r) =
  if Ascii.eqb c sep then EmptyString :: split sep r
  else match split sep r with
       | h :: t => String c h :: t
       | [] => [String c EmptyString]
       end.
Proof. reflexivity. Qed.

Lemma split_nonempty sep s : split sep s <> [].
Proof.
  destruct s as [|c r]; [discriminate|].
  rewrite split_String.
  destruct (Ascii.eqb c sep); [discriminate|].
  destruct (split sep r); discriminate.
Qed.

Lemma join_cons sep x y rest :
  join sep (x :: y :: rest) = (x ++ String sep (join sep (y :: rest)))%string.
Proof. reflexivity. Qed.

Lemma join_split sep s : join sep (split sep s) = s.
Proof.
  induction s as [|c r IH]; [reflexivity|].
  rewrite split_String.
  pose proof (split_nonempty sep r) as Hne.
  destruct (split sep r) as [|y rest]; [contradiction|].
  destruct (Ascii.eqb_spec c sep) as [->|_].
  - rewrite join_cons, IH. reflexivity.
  - destruct rest as [|z rest].
    + cbn in *. now rewrite IH.
    + rewrite join_cons. rewrite join_cons in IH. rewrite <- IH.
      reflexivity.
Qed.

Lemma split_tokens_clean sep s :
  Forall (fun tok => contains sep tok = false) (split sep s).
Proof.
  induction s as [|c r IH].
  - repeat constructor.
  - rewrite split_String.
    destruct (Ascii.eqb_spec c sep) as [->|Hne].
    + constructor; [reflexivity | exact IH].
    + apply Ascii.eqb_neq in Hne.
      destruct (split sep r) as [|y rest].
      * repeat constructor. cbn. now rewrite Hne.
      * inversion IH; subst. constructor; [|assumption].
        cbn. now rewrite Hne.
Qed.

Lemma split_app_clean sep x r :
  contains sep x = false ->
  split sep (x ++ String sep r) = x :: split sep r.
Proof.
  induction x as [|c x IH]; cbn [contains append]; intros Hx.
  - rewrite split_String. now rewrite Ascii.eqb_refl.
  - apply orb_false_iff in Hx. destruct Hx as [Hc Hx].
    rewrite split_String, Hc, (IH Hx). reflexivity.
Qed.

Lemma split_clean sep x : contains sep x = false -> split sep x = [x].
Proof.
  induction x as [|c x IH]; cbn [contains]; intros Hx; [reflexivity|].
  apply orb_false_iff in Hx. destruct Hx as [Hc Hx].
  rewrite split_String, Hc, (IH Hx). reflexivity.
Qed.

Lemma split_join sep toks :
  toks <> [] ->
  Forall (fun tok => contains sep tok = false) toks ->
  split sep (join sep toks) = toks.
Proof.
  induction toks as [|x rest IH]; intros Hne Hclean; [contradiction|].
  inversion Hclean as [|? ? Hx Hrest]; subst.
  destruct rest as [|y rest].
  - cbn. now apply split_clean.
  - rewrite join_cons, split_app_clean by assumption.
    f_equal. apply IH; [discriminate | assumption].
Qed.





(** ** Sorting *)



(** ** Pagination *)









(** ** The envelope *)

(** C2, as amended. On a successful list request whose total is a row
    count below 2^53, the limit the handler worked with is neither [NaN]
    nor zero; it may be negative or infinite. For a finite limit the
    totalPages field of the response is the ceiling of total / limit:
    for a limit of at least 1, the integer n with
    (n - 1) * limit < total <= n * limit; a total of 23 with limit 10
    gives 3. For an infinite limit totalPages is 0. A limit parameter of
    "-5" is taken as -5. *)
Theorem totalPages_is_ceiling :
  forall m H, In (m, H) listHandlers ->
  forall (Store : Type) (db : persistence Store) (s : Store) (req : Request)
         (total : Z) (o : FindOptions) (data : list value),
    answered (run db (H req) s) m total o data ->
    0 <= total < 2 ^ 53 ->
    fo_limit o <> NaN /\ fo_limit o <> Fin 0 /\
    exists resp n,
      result (run db (H req) s) = Resolved resp /\
      status resp = 200 /\
      getField (body resp) "totalPages" = Some (VNum (Fin n)) /\
      isCeilingOf n total (fo_limit o) /\
      (forall l, fo_limit o = Fin l -> 1 <= l ->
                 (n - 1) * l < total <= n * l) /\
      (total = 23 -> fo_limit o = Fin 10 -> n = 3) /\
      (q_limit (query req) = Some (QString "-5") -> fo_limit o = Fin (-5)).
Proof.
  intros m H HIn Store db s req total o data Hans Htotal.
  pose proof (answered_stringPopulate m H HIn Store db s req _ _ _ Hans) as Hq.
  revert Hans. use_list_run HIn Hq db s req respond E R. intros Hans.
  apply listRun_answered in Hans. destruct Hans as [-> Hres].
  cbn [fo_limit normalize].
  destruct (orDefault_not_falsy (parseInt (q_limit (query req))) 10
              ltac:(discriminate)) as [Hnan Hzero].
  fold (limitOf (query req)) in Hnan, Hzero.
  split; [exact Hnan|]. split; [exact Hzero|].
  assert (Hceil : exists n,
             ceilDiv (Fin total) (limitOf (query req)) = Fin n /\
             isCeilingOf n total (limitOf (query req))).
  { destruct (limitOf (query req)) as [| | |l] eqn:El.
    - contradiction.
    - exists 0. split; reflexivity.
    - exists 0. split; reflexivity.
    - destruct (orDefault_parseInt_finite _ 10 l ltac:(discriminate)
                  ltac:(cbn; lia) El) as [Hl Hb].
      apply ceilDiv_ceiling; assumption. }
  destruct Hceil as [n [Hceil Hn]].
  exists (res_json (respond total data)), n.
  split; [exact Hres|]. split; [reflexivity|].
  split; [cbn; rewrite <- Hceil; apply R|].
  split; [exact Hn|]. split; [|split].
  - intros l Hl Hpos. rewrite Hl in Hn. cbn in Hn.
    destruct Hn as [[_ Hn]|[Hneg _]]; [exact Hn | lia].
  - intros Ht Hl. rewrite Hl in Hn. cbn in Hn. rewrite Ht in Hn.
    destruct Hn as [[_ Hn]|[Hneg _]]; lia.
  - intros Hql. unfold limitOf. rewrite Hql. reflexivity.
Qed.

Lemma totalPages_is_ceiling_witness :
  exists resp n,
    result (run Memory.db
              (getAllStudents (listRequest (Some "2") (Some "1") None None))
              Memory.fixture) = Resolved resp /\
    getField (body resp) "totalPages" = Some (VNum (Fin n)) /\
    (n - 1) * 1 < 2 <= n * 1.
Proof.
  destruct (totalPages_is_ceiling Student getAllStudents (or_introl eq_refl)
              Memory.store Memory.db Memory.fixture
              (listRequest (Some "2") (Some "1") None None)
              2 (normalize (query (listRequest (Some "2") (Some "1") None None))
                   (allowedRelations Student))
              [Memory.row "2" "Alan"] eq_refl)
    as [_ [_ [resp [n [Hres [_ [Hfield [_ [Hceil _]]]]]]]]].
  - vm_compute. split; [discriminate | reflexivity].
  - exists resp, n. split; [exact Hres|]. split; [exact Hfield|].
    apply (Hceil 1); [reflexivity | lia].
Defined.

(** C2, as stated, fails: the normalisation lets a negative limit
    through. With [limit=-5] the handler fetches with limit -5. *)
Lemma limit_can_be_negative : ~ limitAtLeastOne.
Proof.
  intros Hclaim.
  destruct (Hclaim Student getAllStudents (or_introl eq_refl)
              Memory.store Memory.db Memory.fixture Memory.fixture
              (listRequest None (Some "-5") None None) 2 I eq_refl)
    as [o [Hcalls [Hge _]]].
  vm_compute in Hcalls. inversion Hcalls; subst o.
  vm_compute in Hge. discriminate Hge.
Qed.

(** C1. On equal data the course handler's envelope is not the one of
    the student handler: its fields come in another order, data before
    totalPages. *)
Lemma course_envelope_differs : ~ envelopeParity.
Proof.
  intros Hclaim.
  destruct (Hclaim Memory.store Memory.db Memory.fixture firstPage 2
              [Memory.row "1" "Ada"; Memory.row "2" "Alan"]
              (normalize (query firstPage) (allowedRelations Student))
              (normalize (query firstPage) (allowedRelations Course))
              (normalize (query firstPage) (allowedRelations Teacher))
              eq_refl eq_refl eq_refl)
    as [env [_ [HS [HC _]]]].
  vm_compute in HS, HC. rewrite <- HS in HC. discriminate HC.
Qed.

(** C7. With a repeated [populate] key the parameter is an array, and
    the student list handler throws before its [try]: the run ends in
    the TypeError, no persistence call is made and no response is
    sent. *)
Lemma populate_array_throws :
  run Memory.db (getAllStudents populateTwice) Memory.fixture
  = {| result := Rejected splitFailure;
       final := Memory.fixture;
       trace := [] |}.
Proof. reflexivity. Qed.
(** ** Delete, then get *)

Lemma find_none_all {A} (f : A -> bool) l :
  (forall x, In x l -> f x = false) -> find f l = None.
Proof.
  induction l as [|a l IH]; cbn; intros Hall; [reflexivity|].
  rewrite (Hall a (or_introl eq_refl)). apply IH. intros x Hx.
  apply Hall. now right.
Qed.

Lemma Memory_rows_setRows s m t : Memory.rows (Memory.setRows s m t) m = t.
Proof. destruct m; reflexivity. Qed.

(** The reference store removes what is destroyed. *)
Lemma Memory_destroyRemoves : destroyRemoves Memory.db.
Proof.
  intros m id inc inst s s1 s2 Hfind Hdestroy inc'.
  cbn in Hfind. inversion Hfind as [[Hinst Hs]]. subst s1. clear Hfind.
  cbn in Hdestroy. unfold Memory.write in Hdestroy.
  destruct (Memory.write_fault s); [discriminate|].
  inversion Hdestroy as [Hs2]. clear Hdestroy.
  unfold Memory.db, fst. f_equal. rewrite Memory_rows_setRows.
  apply find_none_all. intros r Hr.
  apply filter_In in Hr. destruct Hr as [_ Hr].
  apply find_some in Hinst. destruct Hinst as [_ Hpk].
  unfold Memory.samePk in Hr. unfold Memory.hasPk in Hpk.
  destruct (Memory.pkOf inst) as [id'|]; [|discriminate].
  apply String.eqb_eq in Hpk. subst id'.
  now apply negb_true_iff in Hr.
Qed.

(** C9, as amended. On a persistence layer that removes what is
    destroyed: when the lookup of [id] finds an entity and the destroy
    call succeeds, the delete handler responds 200 with the body
    [{message: "Deleted"}], and a get-by-id of the same id that follows
    responds 404 with [{message: "Not found"}]. *)
Theorem delete_then_get :
  forall m del get, In (m, del, get) deleteAndGet ->
  forall (Store : Type) (db : persistence Store),
    destroyRemoves db ->
    forall (s s1 s2 : Store) (inst : value) (req req' : Request),
      db _ (FindByPk m (params_id req) []) s = (Resolved (Some inst), s1) ->
      db _ (Destroy m inst) s1 = (Resolved tt, s2) ->
      params_id req' = params_id req ->
      let deleted := run db (del req) s in
      result deleted =
        Resolved (res_json (VObj [("message", VStr "Deleted")])) /\
      final deleted = s2 /\
      result (run db (get req') (final deleted)) = Resolved notFound.
Proof.
  intros m del get HIn Store db Hlaw s s1 s2 inst req req' Hfind Hdestroy Hid.
  assert (Hdel : run db (del req) s =
                 {| result := Resolved
                      (res_json (VObj [("message", VStr "Deleted")]));
                    final := s2;
                    trace := [(CFindByPk m (params_id req) [],
                               Resolved (AFound (Some inst)));
                              (CDestroy m inst, Resolved ADone)] |}).
  { destruct HIn as [E|[E|[E|[]]]]; inversion E; subst; clear E;
      cbn; rewrite Hfind; cbn; rewrite Hdestroy; reflexivity. }
  cbn zeta. rewrite Hdel. cbn [result final].
  split; [reflexivity|]. split; [reflexivity|].
  assert (Hgone : forall inc,
             fst (db _ (FindByPk m (params_id req') inc) s2) = Resolved None).
  { intros inc. rewrite Hid. eapply Hlaw; eassumption. }
  destruct HIn as [E|[E|[E|[]]]]; inversion E; subst; clear E; cbn;
    match goal with
    | |- context [db _ (FindByPk ?m ?id ?inc) s2] =>
        specialize (Hgone inc);
        destruct (db _ (FindByPk m id inc) s2) as [r s3];
        cbn in Hgone; subst r; reflexivity
    end.
Qed.

Lemma delete_then_get_witness :
  result (run Memory.db (deleteTeacher (byId "1")) Memory.fixture)
    = Resolved (res_json (VObj [("message", VStr "Deleted")])) /\
  result (run Memory.db (getTeacherById (byId "1"))
            (final (run Memory.db (deleteTeacher (byId "1")) Memory.fixture)))
    = Resolved notFound.
Proof.
  destruct (delete_then_get Teacher deleteTeacher getTeacherById
              (or_intror (or_intror (or_introl eq_refl)))
              Memory.store Memory.db Memory_destroyRemoves
              Memory.fixture Memory.fixture
              (Memory.setRows Memory.fixture Teacher [Memory.row "2" "Alan"])
              (Memory.row "1" "Ada") (byId "1") (byId "1")
              eq_refl eq_refl eq_refl)
    as [Hdel [_ Hget]].
  split; [exact Hdel | exact Hget].
Defined.

(** C9, as stated, fails: the entity can be present and the destroy call
    still throw, and then the delete handler responds 500. Here the
    store is read-only. *)
Lemma delete_can_fail : ~ deleteAlwaysSucceeds.
Proof.
  intros Hclaim.
  destruct (Hclaim Memory.store Memory.db Memory_destroyRemoves
              (Memory.readOnly Memory.fixture) "1"
              (ex_intro _ (Memory.row "1" "Ada") eq_refl))
    as [Hdel _].
  vm_compute in Hdel. discriminate Hdel.
Qed.

Example delete_on_read_only_store :
  result (run Memory.db (deleteTeacher (byId "1"))
            (Memory.readOnly Memory.fixture))
  = Resolved (internalFailure
                {| message := "attempt to write a readonly database" |}).
Proof. reflexivity. Qed.

Example get_missing_student :
  result (run Memory.db (getStudentById (byId "9999")) Memory.fixture)
  = Resolved notFound.
Proof. reflexivity. Qed.

(** * Further properties of the controllers *)

(** ** [split] and [join] *)

(** X10. [split] and [join] are inverse to each other: joining the tokens
    of a string gives the string back, no token holds the separator and
    there is at least one token; and a non-empty list of separator-free
    tokens is what its joined string splits into. *)
Theorem split_join_roundtrip :
  forall (sep : ascii),
    (forall s, join sep (split sep s) = s /\
               split sep s <> [] /\
               Forall (fun tok => contains sep tok = false) (split sep s)) /\
    (forall toks, toks <> [] ->
                  Forall (fun tok => contains sep tok = false) toks ->
                  split sep (join sep toks) = toks).
Proof.
  intros sep. split.
  - intros s. split; [apply join_split|].
    split; [apply split_nonempty | apply split_tokens_clean].
  - intros toks. apply split_join.
Qed.

Lemma split_join_roundtrip_witness :
  split "," (join "," ["teacher"; ""; "courses"]) = ["teacher"; ""; "courses"].
Proof.
  apply (proj2 (split_join_roundtrip ",")).
  - discriminate.
  - repeat constructor.
Defined.

(** ** The create handlers *)

(** X1. A create handler makes exactly one persistence call, [create]
    with the request body as it came, and always responds: 201 with the
    created entity when the call resolves, 500 with the error's message
    when it throws. *)
Theorem create_contract :
  forall m H, In (m, H) createHandlers ->
  forall (Store : Type) (db : persistence Store) (s : Store) (req : Request),
    exists ans resp,
      trace (run db (H req) s) = [(CCreate m (req_body req), ans)] /\
      result (run db (H req) s) = Resolved resp /\
      final (run db (H req) s) = snd (db _ (Create m (req_body req)) s) /\
      (forall created,
          fst (db _ (Create m (req_body req)) s) = Resolved created ->
          resp = res_status_json 201 created) /\
      (forall e,
          fst (db _ (Create m (req_body req)) s) = Rejected e ->
          resp = internalFailure e) /\
      (status resp = 201 \/ status resp = 500).
Proof.
  intros m H HIn Store db s req.
  destruct HIn as [E|[E|[E|[]]]]; inversion E; subst; clear E; cbn;
    match goal with
    | |- context [db _ ?c s] => destruct (db _ c s) as [[created|e] s1]
    end; cbn; do 2 eexists;
    (split; [reflexivity|]); (split; [reflexivity|]);
    (split; [reflexivity|]);
    (split; [intros ? Hc; inversion Hc; subst; reflexivity|]);
    (split; [intros ? Hc; inversion Hc; subst; reflexivity|]);
    cbn; tauto.
Qed.

Lemma create_contract_witness :
  exists ans resp,
    trace (run Memory.db (createTeacher (byId "")) Memory.fixture)
      = [(CCreate Teacher VNull, ans)] /\
    result (run Memory.db (createTeacher (byId "")) Memory.fixture)
      = Resolved resp /\
    (status resp = 201 \/ status resp = 500).
Proof.
  destruct (create_contract Teacher createTeacher
              (or_intror (or_intror (or_introl eq_refl)))
              Memory.store Memory.db Memory.fixture (byId ""))
    as [ans [resp [Ht [Hr [_ [_ [_ Hs]]]]]]].
  exists ans, resp. split; [exact Ht|]. split; [exact Hr | exact Hs].
Defined.

(** ** Failures of a list request *)





(** ** What the GET handlers never do *)

(** X3. The handlers behind the GET routes, the three list handlers and
    the three get-by-id handlers, only read, and only their own model:
    every call they make is a count, a list fetch or a primary-key
    lookup on that model; they never create, update or destroy. *)
Theorem get_routes_only_read :
  forall m H, In (m, H) readHandlers ->
  forall (Store : Type) (db : persistence Store) (s : Store) (req : Request),
    Forall (fun ev => readsOnly m (fst ev)) (trace (run db (H req) s)).
Proof.
  intros m H HIn Store db s req.
  unfold readHandlers in HIn. apply in_app_or in HIn.
  destruct HIn as [HIn|HIn].
  - destruct (stringPopulate_dec (query req)) as [Hq|Hq].
    + use_list_run HIn Hq db s req respond E R. unfold listRun.
      destruct (db _ (Count m) s) as [[total|e] s1]; cbn;
        [destruct (db _ (FindAll m _) s1) as [[data|e] s2]; cbn|];
        repeat constructor.
    + rewrite (listHandlers_throw m H HIn Store db s req Hq). constructor.
  - cbn in HIn.
    destruct HIn as [E|[E|[E|[]]]]; inversion E; subst; clear E; cbn;
      match goal with
      | |- context [db _ ?c s] => destruct (db _ c s) as [[[inst|]|e] s1]
      end; cbn; repeat constructor.
Qed.

Lemma get_routes_only_read_witness :
  Forall (fun ev => readsOnly Student (fst ev))
    (trace (run Memory.db (getStudentById (byId "1")) Memory.fixture)).
Proof.
  apply (get_routes_only_read Student getStudentById).
  right; right; right; left; reflexivity.
Defined.

(** ** Update and delete *)

Ltac pick_handler HIn :=
  repeat (destruct HIn as [HIn|HIn];
          [inversion HIn; subst; clear HIn|]);
  [..|destruct HIn].

(** X4. An update or delete handler writes nothing unless its lookup
    found an instance: when the lookup resolves to nothing or throws,
    the lookup is the only call of the run, and the store is left as the
    lookup left it. *)
Theorem no_write_without_instance :
  forall m H, In (m, H) (updateHandlers ++ deleteHandlers) ->
  forall (Store : Type) (db : persistence Store) (s : Store) (req : Request),
    (forall inst,
        fst (db _ (FindByPk m (params_id req) []) s)
          <> Resolved (Some inst)) ->
    exists ans,
      trace (run db (H req) s) = [(CFindByPk m (params_id req) [], ans)] /\
      final (run db (H req) s) = snd (db _ (FindByPk m (params_id req) []) s).
Proof.
  intros m H HIn Store db s req Hnone.
  cbn in HIn. pick_handler HIn; cbn;
    match goal with
    | |- context [db _ ?c s] =>
        destruct (db _ c s) as [[[inst|]|e] s1] eqn:Hfind
    end; cbn in *;
    try (exfalso; eapply Hnone; reflexivity);
    eexists; split; reflexivity.
Qed.

Lemma no_write_without_instance_witness :
  exists ans,
    trace (run Memory.db (deleteCourse (byId "9999")) Memory.fixture)
      = [(CFindByPk Course "9999" [], ans)] /\
    final (run Memory.db (deleteCourse (byId "9999")) Memory.fixture)
      = Memory.fixture.
Proof.
  apply (no_write_without_instance Course deleteCourse).
  - right; right; right; right; left; reflexivity.
  - intros inst. discriminate.
Defined.

(** X5. When the lookup finds an instance, an update handler calls
    [update] on that very instance with the request body as it came, and
    nothing else: if the update resolves, the response is 200 with the
    instance as updated; if it throws, the response is 500 with the
    error's message. *)
Theorem update_found :
  forall m H, In (m, H) updateHandlers ->
  forall (Store : Type) (db : persistence Store) (s s1 : Store)
         (req : Request) (inst : value),
    db _ (FindByPk m (params_id req) []) s = (Resolved (Some inst), s1) ->
    exists ans,
      trace (run db (H req) s)
        = [(CFindByPk m (params_id req) [], Resolved (AFound (Some inst)));
           (CUpdate m inst (req_body req), ans)] /\
      final (run db (H req) s)
        = snd (db _ (Update m inst (req_body req)) s1) /\
      (forall updated,
          fst (db _ (Update m inst (req_body req)) s1) = Resolved updated ->
          result (run db (H req) s) = Resolved (res_json updated)) /\
      (forall e,
          fst (db _ (Update m inst (req_body req)) s1) = Rejected e ->
          result (run db (H req) s) = Resolved (internalFailure e)).
Proof.
  intros m H HIn Store db s s1 req inst Hfind.
  pick_handler HIn; cbn; rewrite Hfind; cbn;
    match goal with
    | |- context [db _ ?c s1] => destruct (db _ c s1) as [[updated|e] s2]
    end; cbn; eexists;
    (split; [reflexivity|]); (split; [reflexivity|]);
    split; intros ? Hu; inversion Hu; subst; reflexivity.
Qed.

Lemma update_found_witness :
  result (run Memory.db
            (updateStudent
               {| query := query (byId "2"); params_id := "2";
                  req_body := VObj [("name", VStr "Grace")] |})
            Memory.fixture)
  = Resolved (res_json (Memory.row "2" "Grace")).
Proof.
  destruct (update_found Student updateStudent (or_introl eq_refl)
              Memory.store Memory.db Memory.fixture Memory.fixture
              {| query := query (byId "2"); params_id := "2";
                 req_body := VObj [("name", VStr "Grace")] |}
              (Memory.row "2" "Alan") eq_refl)
    as [ans [_ [_ [Hok _]]]].
  apply Hok. reflexivity.
Defined.

(** ** Get by id *)

(** X6. A get-by-id handler makes one call, the lookup of the request's
    id with the handler's own fixed relations; an instance that is found
    is returned as it is with status 200. The query string and the body
    of the request have no influence: two requests with the same id get
    the same run. *)
Theorem get_by_id_fixed_relations :
  forall m H inc, In (m, H, inc) getHandlers ->
  forall (Store : Type) (db : persistence Store) (s : Store) (req : Request),
    (exists ans,
        trace (run db (H req) s) = [(CFindByPk m (params_id req) inc, ans)]) /\
    (forall inst,
        fst (db _ (FindByPk m (params_id req) inc) s) = Resolved (Some inst) ->
        result (run db (H req) s) = Resolved (res_json inst)) /\
    (forall req', params_id req' = params_id req ->
                  run db (H req') s = run db (H req) s).
Proof.
  intros m H inc HIn Store db s req.
  pick_handler HIn; (split; [|split]);
    try (intros req' Hid; cbn; rewrite Hid; reflexivity);
    cbn;
    match goal with
    | |- context [db _ ?c s] => destruct (db _ c s) as [[[inst|]|e] s1]
    end; cbn;
    try (eexists; reflexivity);
    intros ? Hf; inversion Hf; subst; reflexivity.
Qed.

Lemma get_by_id_fixed_relations_witness :
  run Memory.db
    (getCourseById
       {| query := query populateStudents; params_id := "1";
          req_body := VNull |})
    Memory.fixture
  = run Memory.db (getCourseById (byId "1")) Memory.fixture.
Proof.
  apply (get_by_id_fixed_relations Course getCourseById [Student; Teacher]).
  - right; left; reflexivity.
  - reflexivity.
Defined.

(** ** After an error *)

(** X7. No handler goes on after a persistence call has thrown: in every
    run of every handler, a call that threw is the last call of the run,
    and the response is 500 with the message of that error. *)
Theorem stops_at_first_error :
  forall m H, In (m, H) allHandlers ->
  forall (Store : Type) (db : persistence Store) (s : Store) (req : Request)
         (pre post : list event) (c : call) (e : Error),
    trace (run db (H req) s) = (pre ++ (c, Rejected e) :: post)%list ->
    post = [] /\
    result (run db (H req) s) = Resolved (internalFailure e).
Proof.
  intros m H HIn Store db s req pre post c e.
  unfold allHandlers, readHandlers in HIn.
  assert (Hsplit : In (m, H) listHandlers \/
                   In (m, H) (createHandlers
                              ++ map (fun h => (fst (fst h), snd (fst h)))
                                     getHandlers
                              ++ updateHandlers ++ deleteHandlers)).
  { rewrite !in_app_iff in *. tauto. }
  clear HIn. destruct Hsplit as [HIn|HIn].
  - destruct (stringPopulate_dec (query req)) as [Hq|Hq].
    + use_list_run HIn Hq db s req respond E R. unfold listRun.
      destruct (db _ (Count m) s) as [[total|e1] s1]; cbn;
        [destruct (db _ (FindAll m _) s1) as [[data|e2] s2]; cbn|];
        intros Ht;
        destruct pre as [|p1 [|p2 [|p3 pre]]]; cbn in Ht; inversion Ht; subst;
        try (split; reflexivity);
        try (destruct pre; discriminate).
    + rewrite (listHandlers_throw m H HIn Store db s req Hq). cbn.
      intros Ht. destruct pre; discriminate.
  - cbn in HIn. pick_handler HIn; cbn;
      repeat match goal with
             | |- context [let '(_, _) := ?db _ ?c ?s in _] =>
                 destruct (db _ c s) as [[?|?] ?]; cbn
             | |- context [match ?o with Some _ => _ | None => _ end] =>
                 is_var o; destruct o; cbn
             end;
      intros Ht;
      destruct pre as [|p1 [|p2 [|p3 pre]]]; cbn in Ht; inversion Ht; subst;
      try (split; reflexivity);
      try (destruct pre; discriminate).
Qed.

Lemma stops_at_first_error_witness :
  result (run Memory.db (createCourse (byId ""))
            (Memory.readOnly Memory.fixture))
  = Resolved (internalFailure
                {| message := "attempt to write a readonly database" |}).
Proof.
  apply (stops_at_first_error Course createCourse
           (or_intror (or_introl eq_refl))
           Memory.store Memory.db (Memory.readOnly Memory.fixture) (byId "")
           [] [] (CCreate Course VNull)).
  reflexivity.
Defined.

(** X11. On a persistence layer that removes what is destroyed, a delete
    that succeeded cannot be repeated and its entity cannot be updated:
    the update or delete handler then responds 404 for the same id, and
    its lookup is the only call it makes. *)
Theorem gone_after_delete :
  forall m del again, In (m, del) deleteHandlers ->
                      In (m, again) (updateHandlers ++ deleteHandlers) ->
  forall (Store : Type) (db : persistence Store),
    destroyRemoves db ->
    forall (s s1 s2 : Store) (inst : value) (req req' : Request),
      db _ (FindByPk m (params_id req) []) s = (Resolved (Some inst), s1) ->
      db _ (Destroy m inst) s1 = (Resolved tt, s2) ->
      params_id req' = params_id req ->
      final (run db (del req) s) = s2 /\
      result (run db (again req') s2) = Resolved notFound /\
      trace (run db (again req') s2)
        = [(CFindByPk m (params_id req) [], Resolved (AFound None))].
Proof.
  intros m del again Hdel Hagain Store db Hlaw s s1 s2 inst req req'
         Hfind Hdestroy Hid.
  split.
  - pick_handler Hdel; cbn; rewrite Hfind; cbn; rewrite Hdestroy;
      reflexivity.
  - pose proof (Hlaw m _ _ _ _ _ _ Hfind Hdestroy []) as Hgone.
    rewrite <- Hid in *.
    destruct (db _ (FindByPk m (params_id req') []) s2) as [r s3] eqn:E2.
    cbn in Hgone. subst r.
    cbn in Hagain. clear Hdel.
    pick_handler Hagain; cbn; rewrite E2; cbn; split; reflexivity.
Qed.

Lemma gone_after_delete_witness :
  result (run Memory.db (deleteStudent (byId "1"))
            (final (run Memory.db (deleteStudent (byId "1")) Memory.fixture)))
  = Resolved notFound.
Proof.
  destruct (gone_after_delete Student deleteStudent deleteStudent
              (or_introl eq_refl)
              (or_intror (or_intror (or_intror (or_introl eq_refl))))
              Memory.store Memory.db Memory_destroyRemoves
              Memory.fixture Memory.fixture
              (Memory.setRows Memory.fixture Student [Memory.row "2" "Alan"])
              (Memory.row "1" "Ada") (byId "1") (byId "1")
              eq_refl eq_refl eq_refl)
    as [_ [Hres _]].
  exact Hres.
Defined.



(** X15. On successful list requests that were answered the
    same total and the same data, the three handlers respond 200 with an
    object of the same four fields, total, page, totalPages and data,
    holding the same values. The student and the teacher handler emit
    them in that order and so emit identical envelopes; the course
    handler emits them in the order total, page, data, totalPages. *)
Theorem envelope_fields :
  forall (Store : Type) (db : persistence Store) (s : Store) (req : Request)
         (total : Z) (data : list value) (oS oC oT : FindOptions),
    answered (run db (getAllStudents req) s) Student total oS data ->
    answered (run db (getAllCourses req) s) Course total oC data ->
    answered (run db (getAllTeachers req) s) Teacher total oT data ->
    let q := query req in
    let env := envelope total (pageOf q) (limitOf q) data in
    let cenv := courseEnvelope total (pageOf q) (limitOf q) data in
    result (run db (getAllStudents req) s) = Resolved (res_json env) /\
    result (run db (getAllTeachers req) s) = Resolved (res_json env) /\
    result (run db (getAllCourses req) s) = Resolved (res_json cenv) /\
    keys env = ["total"; "page"; "totalPages"; "data"] /\
    keys cenv = ["total"; "page"; "data"; "totalPages"] /\
    (forall k, getField cenv k = getField env k).
Proof.
  intros Store db s req total data oS oC oT.
  intros HS HC HT q env cenv.
  pose proof (answered_stringPopulate Student getAllStudents
                (or_introl eq_refl) Store db s req _ _ _ HS) as Hq.
  revert HS HC HT.
  rewrite getAllStudents_run, getAllCourses_run, getAllTeachers_run
    by exact Hq.
  intros HS HC HT.
  apply listRun_answered in HS, HC, HT.
  destruct HS as [_ HS]. destruct HC as [_ HC]. destruct HT as [_ HT].
  split; [exact HS|]. split; [exact HT|]. split; [exact HC|].
  split; [reflexivity|]. split; [reflexivity|].
  intros k. cbn.
  destruct (String.eqb_spec k "total"); [reflexivity|].
  destruct (String.eqb_spec k "page"); [reflexivity|].
  destruct (String.eqb_spec k "data") as [->|]; [reflexivity|].
  destruct (String.eqb_spec k "totalPages") as [->|]; reflexivity.
Qed.

Lemma envelope_fields_witness :
  result (run Memory.db (getAllStudents firstPage) Memory.fixture)
    = Resolved (res_json (envelope 2 (Fin 1) (Fin 10)
                            (Memory.rows Memory.fixture Student)))
  /\
  result (run Memory.db (getAllCourses firstPage) Memory.fixture)
    = Resolved (res_json
                  (courseEnvelope 2 (Fin 1) (Fin 10)
                     (Memory.rows Memory.fixture Course))).
Proof.
  destruct (envelope_fields Memory.store Memory.db Memory.fixture firstPage 2
              [Memory.row "1" "Ada"; Memory.row "2" "Alan"]
              (normalize (query firstPage) (allowedRelations Student))
              (normalize (query firstPage) (allowedRelations Course))
              (normalize (query firstPage) (allowedRelations Teacher))
              eq_refl eq_refl eq_refl)
    as [HS [_ [HC _]]].
  split; [exact HS | exact HC].
Defined.

(** ** Page numbers and page counts *)

Lemma list_success m H :
  In (m, H) listHandlers ->
  forall (Store : Type) (db : persistence Store) (s : Store) (req : Request)
         (total : Z) (o : FindOptions) (data : list value),
    answered (run db (H req) s) m total o data ->
    0 <= total < 2 ^ 53 ->
    o = normalize (query req) (allowedRelations m) /\
    exists resp n,
      result (run db (H req) s) = Resolved resp /\
      status resp = 200 /\
      getField (body resp) "page" = Some (VNum (pageOf (query req))) /\
      getField (body resp) "totalPages" = Some (VNum (Fin n)) /\
      isCeilingOf n total (limitOf (query req)).
Proof.
  intros HIn Store db s req total o data Hans Htotal.
  pose proof (answered_stringPopulate m H HIn Store db s req _ _ _ Hans) as Hq.
  revert Hans. use_list_run HIn Hq db s req respond E R. intros Hans.
  apply listRun_answered in Hans. destruct Hans as [-> Hres].
  split; [reflexivity|].
  destruct (orDefault_not_falsy (parseInt (q_limit (query req))) 10
              ltac:(discriminate)) as [Hnan Hzero].
  fold (limitOf (query req)) in Hnan, Hzero.
  assert (Hceil : exists n,
             ceilDiv (Fin total) (limitOf (query req)) = Fin n /\
             isCeilingOf n total (limitOf (query req))).
  { destruct (limitOf (query req)) as [| | |l] eqn:El.
    - contradiction.
    - exists 0. split; reflexivity.
    - exists 0. split; reflexivity.
    - destruct (orDefault_parseInt_finite _ 10 l ltac:(discriminate)
                  ltac:(cbn; lia) El) as [Hl Hb].
      apply ceilDiv_ceiling; assumption. }
  destruct Hceil as [n [Hceil Hn]].
  exists (res_json (respond total data)), n.
  split; [exact Hres|]. split; [reflexivity|].
  split; [apply R|]. split; [cbn; rewrite <- Hceil; apply R | exact Hn].
Qed.

Lemma safe_factor a l : l <> 0 -> safe (a * l) -> safe a.
Proof. unfold safe. intros Hl H. nia. Qed.

(** X8. On a successful list request with a finite page, a finite limit
    of at least 1, a total below 2^53 and a product (page - 1) * limit
    that a double holds exactly, the reported page and totalPages fit
    the window that was fetched: the offset lies before the end of the
    rows, offset < total, exactly when page <= totalPages; and
    totalPages is at least 1 exactly when there is a row at all. *)
Theorem page_within_totalPages :
  forall m H, In (m, H) listHandlers ->
  forall (Store : Type) (db : persistence Store) (s : Store) (req : Request)
         (total : Z) (o : FindOptions) (data : list value) (p l : Z),
    answered (run db (H req) s) m total o data ->
    0 <= total < 2 ^ 53 ->
    pageOf (query req) = Fin p ->
    fo_limit o = Fin l ->
    1 <= l ->
    safe ((p - 1) * l) ->
    exists resp n off,
      result (run db (H req) s) = Resolved resp /\
      getField (body resp) "page" = Some (VNum (Fin p)) /\
      getField (body resp) "totalPages" = Some (VNum (Fin n)) /\
      fo_offset o = Fin off /\
      (off < total <-> p <= n) /\
      (1 <= n <-> 1 <= total).
Proof.
  intros m H HIn Store db s req total o data p l Hans Htotal Hp Hl Hpos Hsafe.
  destruct (list_success m H HIn Store db s req total o data Hans Htotal)
    as [-> [resp [n [Hres [_ [Hpage [Hpages Hn]]]]]]].
  cbn in Hl |- *. rewrite Hl in Hn |- *. rewrite Hp in Hpage |- *.
  exists resp, n, ((p - 1) * l).
  split; [exact Hres|]. split; [exact Hpage|]. split; [exact Hpages|].
  split.
  { rewrite sub_exact by (apply (safe_factor _ l); [lia | assumption]).
    now apply mul_exact. }
  cbn in Hn. destruct Hn as [[_ Hn]|[Hneg _]]; [|lia].
  split; split; intros; nia.
Qed.

Lemma page_within_totalPages_witness :
  exists resp n off,
    result (run Memory.db
              (getAllStudents (listRequest (Some "3") (Some "1") None None))
              Memory.fixture) = Resolved resp /\
    getField (body resp) "page" = Some (VNum (Fin 3)) /\
    getField (body resp) "totalPages" = Some (VNum (Fin n)) /\
    (off < 2 <-> 3 <= n).
Proof.
  destruct (page_within_totalPages Student getAllStudents (or_introl eq_refl)
              Memory.store Memory.db Memory.fixture
              (listRequest (Some "3") (Some "1") None None) 2
              (normalize (query (listRequest (Some "3") (Some "1") None None))
                 (allowedRelations Student))
              [] 3 1 eq_refl)
    as [resp [n [off [Hres [Hpage [Hpages [_ [Hfit _]]]]]]]].
  - vm_compute. split; [discriminate | reflexivity].
  - reflexivity.
  - reflexivity.
  - lia.
  - vm_compute. discriminate.
  - exists resp, n, off.
    split; [exact Hres|]. split; [exact Hpage|]. split; [exact Hpages|].
    exact Hfit.
Defined.

(** X12. A negative limit is not rejected: on a successful list request
    with a finite negative limit, a total from 0 up to below 2^53, a
    page of at least 1 and a product (page - 1) * limit that a double
    holds exactly, the reported totalPages is zero or negative, so that
    every page from 1 on lies beyond it, and the offset sent is zero or
    negative. *)
Theorem negative_limit_pages :
  forall m H, In (m, H) listHandlers ->
  forall (Store : Type) (db : persistence Store) (s : Store) (req : Request)
         (total : Z) (o : FindOptions) (data : list value) (p l : Z),
    answered (run db (H req) s) m total o data ->
    0 <= total < 2 ^ 53 ->
    pageOf (query req) = Fin p ->
    fo_limit o = Fin l ->
    l < 0 ->
    1 <= p ->
    safe ((p - 1) * l) ->
    exists resp n off,
      result (run db (H req) s) = Resolved resp /\
      status resp = 200 /\
      getField (body resp) "page" = Some (VNum (Fin p)) /\
      getField (body resp) "totalPages" = Some (VNum (Fin n)) /\
      n <= 0 /\
      fo_offset o = Fin off /\
      off <= 0.
Proof.
  intros m H HIn Store db s req total o data p l Hans Htotal Hp Hl Hneg Hp1
         Hsafe.
  destruct (list_success m H HIn Store db s req total o data Hans Htotal)
    as [-> [resp [n [Hres [Hok [Hpage [Hpages Hn]]]]]]].
  cbn in Hl |- *. rewrite Hl in Hn |- *. rewrite Hp in Hpage |- *.
  exists resp, n, ((p - 1) * l).
  split; [exact Hres|]. split; [exact Hok|].
  split; [exact Hpage|]. split; [exact Hpages|].
  cbn in Hn. destruct Hn as [[Hpos _]|[_ Hn]]; [lia|].
  split; [nia|]. split; [|nia].
  rewrite sub_exact by (apply (safe_factor _ l); [lia | assumption]).
  now apply mul_exact.
Qed.

Lemma negative_limit_pages_witness :
  exists resp n off,
    result (run Memory.db
              (getAllTeachers (listRequest (Some "2") (Some "-5") None None))
              Memory.fixture) = Resolved resp /\
    status resp = 200 /\
    getField (body resp) "totalPages" = Some (VNum (Fin n)) /\
    n <= 0 /\ off <= 0.
Proof.
  destruct (negative_limit_pages Teacher getAllTeachers
              (or_intror (or_intror (or_introl eq_refl)))
              Memory.store Memory.db Memory.fixture
              (listRequest (Some "2") (Some "-5") None None) 2
              (normalize (query (listRequest (Some "2") (Some "-5") None None))
                 (allowedRelations Teacher))
              [] 2 (-5) eq_refl)
    as [resp [n [off [Hres [Hok [_ [Hpages [Hn [_ Hoff]]]]]]]]].
  - vm_compute. split; [discriminate | reflexivity].
  - reflexivity.
  - reflexivity.
  - lia.
  - lia.
  - vm_compute. discriminate.
  - exists resp, n, off.
    split; [exact Hres|]. split; [exact Hok|].
    split; [exact Hpages|]. split; [exact Hn | exact Hoff].
Defined.

(** ** Order and repetition of populate tokens *)



(** ** Decimal page sizes *)

Lemma trimStart_start c r :
  isStrWhiteSpaceChar c = false -> trimStart (String c r) = String c r.
Proof. intros Hc. cbn [trimStart]. now rewrite Hc. Qed.

Lemma radixDigits_digit R c d r :
  digitValue c = Some d -> (d <? R) = true ->
  radixDigits R (String c r) = d :: radixDigits R r.
Proof. intros Hc Hd. cbn [radixDigits]. now rewrite Hc, Hd. Qed.

Lemma radixDigits_uint d :
  radixDigits 10 (NilEmpty.string_of_uint d) = digitsOf d.
Proof.
  induction d; cbn [NilEmpty.string_of_uint digitsOf]; [reflexivity|..];
    (erewrite radixDigits_digit; [|reflexivity|reflexivity]); now rewrite IHd.
Qed.

Lemma mathInt_uint d acc :
  fold_left (fun a x => a * 10 + x) (digitsOf d) (Z.of_nat acc)
  = Z.of_nat (Nat.of_uint_acc d acc).
Proof.
  revert acc.
  induction d; intros acc; cbn [digitsOf fold_left Nat.of_uint_acc];
    [reflexivity|..];
    rewrite <- IHd; f_equal; rewrite Nat.tail_mul_spec; lia.
Qed.

Ltac parse_digits :=
  unfold parseIntString;
  rewrite trimStart_start by reflexivity;
  cbv beta iota zeta;
  (erewrite radixDigits_digit; [|reflexivity|reflexivity]);
  cbv beta iota; now rewrite Z.mul_1_l.

Lemma parseIntString_uint d :
  d <> Decimal.Nil ->
  parseIntString (NilEmpty.string_of_uint d)
  = roundInt (mathInt 10 (digitsOf d)).
Proof.
  intros Hd.
  rewrite <- radixDigits_uint.
  destruct d as [|d|d|d|d|d|d|d|d|d|d]; [contradiction|..];
    cbn [NilEmpty.string_of_uint]; try parse_digits.
  destruct d; cbn [NilEmpty.string_of_uint]; parse_digits.
Qed.

Lemma mathInt_of_uint d : mathInt 10 (digitsOf d) = Z.of_nat (Nat.of_uint d).
Proof.
  unfold mathInt, Nat.of_uint. change 0 with (Z.of_nat 0).
  apply mathInt_uint.
Qed.

(** [parseInt] reads a decimal numeral back as the double nearest to
    the number it denotes. *)
Lemma parseInt_decimal n :
  parseInt (Some (QString (decimal n))) = roundInt (Z.of_nat n).
Proof.
  unfold parseInt, ToString, ToStringValue, decimal, NilZero.string_of_uint.
  pose proof (DecimalNat.Unsigned.of_to n) as Hn.
  destruct (Nat.to_uint n) as [|d|d|d|d|d|d|d|d|d|d] eqn:E;
    try (rewrite parseIntString_uint by discriminate;
         now rewrite mathInt_of_uint, Hn).
  cbn in Hn. subst n. reflexivity.
Qed.

(** X13. A page size and a page number written as decimal numerals of
    positive integers are taken as they are, without any clamping, as
    long as a double holds them and the product (page - 1) * limit
    exactly, that is up to 2^53: the list handler fetches with exactly
    that limit, and with the offset (page - 1) * limit. *)
Theorem decimal_limit_and_page :
  forall m H, In (m, H) listHandlers ->
  forall (Store : Type) (db : persistence Store) (s s1 : Store)
         (req : Request) (total : Z) (limit page : nat),
    (1 <= limit)%nat -> (1 <= page)%nat ->
    Z.of_nat limit <= 2 ^ 53 ->
    Z.of_nat page <= 2 ^ 53 ->
    Z.of_nat ((page - 1) * limit) <= 2 ^ 53 ->
    q_limit (query req) = Some (QString (decimal limit)) ->
    q_page (query req) = Some (QString (decimal page)) ->
    stringPopulate (query req) ->
    db _ (Count m) s = (Resolved total, s1) ->
    exists o,
      findAllCalls (trace (run db (H req) s)) = [(m, o)] /\
      fo_limit o = Fin (Z.of_nat limit) /\
      fo_offset o = Fin (Z.of_nat ((page - 1) * limit)).
Proof.
  intros m H HIn Store db s s1 req total limit page Hl Hp Hbl Hbp Hbo
         Hql Hqp Hq Hcount.
  use_list_run HIn Hq db s req respond E R.
  eexists; split; [eapply listRun_query; eassumption|].
  cbn. unfold limitOf, pageOf. rewrite Hql, Hqp, !parseInt_decimal.
  rewrite (roundInt_exact (Z.of_nat limit)) by lia.
  rewrite (roundInt_exact (Z.of_nat page)) by lia.
  rewrite (orDefault_truthy (Z.of_nat limit)) by lia.
  rewrite (orDefault_truthy (Z.of_nat page)) by lia.
  split; [reflexivity|].
  rewrite sub_exact by (unfold safe; lia).
  rewrite Nat2Z.inj_mul, Nat2Z.inj_sub in * by lia.
  apply mul_exact. unfold safe. cbn [Z.of_nat Pos.of_succ_nat] in *. lia.
Qed.

Lemma decimal_limit_and_page_witness :
  exists o,
    findAllCalls
      (trace (run Memory.db
                (getAllCourses (listRequest (Some "3") (Some "250") None None))
                Memory.fixture)) = [(Course, o)] /\
    fo_limit o = Fin 250 /\ fo_offset o = Fin 500.
Proof.
  destruct (decimal_limit_and_page Course getAllCourses
              (or_intror (or_introl eq_refl))
              Memory.store Memory.db Memory.fixture Memory.fixture
              (listRequest (Some "3") (Some "250") None None) 2
              250%nat 3%nat)
    as [o [Hcalls [Hlimit Hoffset]]];
    [lia | lia | vm_compute; discriminate | vm_compute; discriminate
     | vm_compute; discriminate | reflexivity | reflexivity | exact I
     | reflexivity |].
  exists o. split; [exact Hcalls|]. split; [exact Hlimit | exact Hoffset].
Defined.
